(** * Renewal dialog of the expired-memberships page

    A shallow embedding of
    [src/Frontend/src/pages/ExpiredMemberships.tsx]: the state held by the
    component's [useState] hooks, its event handlers and its effects as
    state transformers, and the values derived on every render.

    JavaScript numbers are IEEE-754 binary64 values and are modelled by
    Rocq's primitive floats; record ids are integer keys and are modelled
    by [Z].  Strings are byte strings holding the UTF-8 encoding of the
    JavaScript string.  Answers of the remote API are inputs of the
    transitions; calls, toasts and console messages are collected in a
    trace. *)

From Stdlib Require Import ZArith String Ascii List Bool Lia.
From Stdlib Require Import Floats.PrimFloat Floats.SpecFloat Floats.FloatOps.
From stdpp Require Import base decidable option list strings gmap.

Import ListNotations.
Local Open Scope string_scope.
Local Open Scope Z_scope.

(** ** The ECMAScript built-ins the page relies on *)

Module JS.

(** *** Strings *)

Definition bytes (s : string) : list Z :=
  map (fun c => Z.of_N (N_of_ascii c)) (list_ascii_of_string s).

Definition unbytes (l : list Z) : string :=
  string_of_list_ascii (map (fun z => ascii_of_N (Z.to_N z)) l).

(** [WhiteSpace] and [LineTerminator] code points that fit in one byte. *)
Definition isSpace1 (b : Z) : bool :=
  ((9 <=? b) && (b <=? 13)) || (b =? 32).

(** U+00A0 is the only one with a two-byte encoding. *)
Definition isSpace2 (b1 b2 : Z) : bool :=
  (b1 =? 194) && (b2 =? 160).

(** U+1680, U+2000..U+200A, U+2028, U+2029, U+202F, U+205F, U+3000 and
    U+FEFF. *)
Definition isSpace3 (b1 b2 b3 : Z) : bool :=
  ((b1 =? 225) && (b2 =? 154) && (b3 =? 128))
  || ((b1 =? 226) && (b2 =? 128)
      && (((128 <=? b3) && (b3 <=? 138)) || (b3 =? 168) || (b3 =? 169) || (b3 =? 175)))
  || ((b1 =? 226) && (b2 =? 129) && (b3 =? 159))
  || ((b1 =? 227) && (b2 =? 128) && (b3 =? 128))
  || ((b1 =? 239) && (b2 =? 187) && (b3 =? 191)).

Fixpoint trimStartBytes (l : list Z) : list Z :=
  match l with
  | [] => []
  | b1 :: r1 =>
      if isSpace1 b1 then trimStartBytes r1
      else match r1 with
           | [] => l
           | b2 :: r2 =>
               if isSpace2 b1 b2 then trimStartBytes r2
               else match r2 with
                    | [] => l
                    | b3 :: r3 =>
                        if isSpace3 b1 b2 b3 then trimStartBytes r3 else l
                    end
           end
  end.

Definition allSpace (l : list Z) : bool :=
  match trimStartBytes l with [] => true | _ => false end.

Fixpoint trimEndBytes (l : list Z) : list Z :=
  match l with
  | [] => []
  | b :: r => if allSpace l then [] else b :: trimEndBytes r
  end.

(** [String.prototype.trim]. *)
Definition trim (s : string) : string :=
  unbytes (trimEndBytes (trimStartBytes (bytes s))).

(** A string is falsy exactly when it is empty. *)
Definition truthyStr (s : string) : bool :=
  match s with EmptyString => false | _ => true end.

Fixpoint startsWith (p l : list Z) : bool :=
  match p, l with
  | [], _ => true
  | a :: p', b :: l' => (a =? b) && startsWith p' l'
  | _ :: _, [] => false
  end.

(** [s.split(sep)[0]] for a non-empty separator: the part of [s] before
    the first occurrence of [sep], or all of [s]. *)
Fixpoint splitHeadBytes (sep l : list Z) : list Z :=
  match l with
  | [] => []
  | b :: r => if startsWith sep l then [] else b :: splitHeadBytes sep r
  end.

Definition splitHead (sep s : string) : string :=
  unbytes (splitHeadBytes (bytes sep) (bytes s)).

(** *** Numbers *)

Definition NaN : float := nan.

(** A number is falsy exactly when it is [NaN], [+0] or [-0]. *)
Definition truthyNum (x : float) : bool :=
  negb (is_nan x || is_zero x).

(** [x || d] on a number [x]. *)
Definition orNum (x d : float) : float :=
  if truthyNum x then x else d.

(** A numeric id is falsy exactly when it is [0]. *)
Definition truthyId (z : Z) : bool := negb (z =? 0).

(** [v?.value] of an optional id as a condition. *)
Definition truthyOptId (o : option Z) : bool :=
  match o with Some z => truthyId z | None => false end.

Definition isDigit (b : Z) : bool := (48 <=? b) && (b <=? 57).

Fixpoint takeDigits (l : list Z) : list Z * list Z :=
  match l with
  | b :: r => if isDigit b then let '(d, rest) := takeDigits r in (b :: d, rest)
              else ([], l)
  | [] => ([], [])
  end.

Definition digitsValue (d : list Z) : Z :=
  fold_left (fun acc b => 10 * acc + (b - 48)) d 0.

(** The binary64 value nearest to [m * 10 ^ e] (ties to even), for
    [0 <= m]; [neg] is the sign of the literal. *)
Definition decimalToFloat (neg : bool) (m e : Z) : float :=
  let sgn (x : Z) := if neg then - x else x in
  if m =? 0 then (if neg then neg_zero else zero)
  else
    let nd := Z.log2 m * 30103 / 100000 in
    if 310 <? e + nd then (if neg then neg_infinity else infinity)
    else if e + nd <? -330 then (if neg then neg_zero else zero)
    else if 0 <=? e then SF2Prim (binary_normalize prec emax (sgn (m * 10 ^ e)) 0 neg)
    else
      let den := 10 ^ (- e) in
      let k := Z.max 0 (Z.log2 den + 66 - Z.log2 m) in
      let num := m * 2 ^ k in
      let q := num / den in
      let sticky := if num mod den =? 0 then 0 else 1 in
      SF2Prim (binary_normalize prec emax (sgn (2 * q + sticky)) (- k - 1) neg).

(** The exponent part of a [StrDecimalLiteral]: [e] or [E], an optional
    sign and at least one digit; anything else leaves the exponent at 0. *)
Definition exponentPart (l : list Z) : Z :=
  match l with
  | b :: r =>
      if (b =? 101) || (b =? 69) then
        let '(neg, r') :=
          match r with
          | s :: r1 => if s =? 45 then (true, r1) else if s =? 43 then (false, r1) else (false, r)
          | [] => (false, r)
          end in
        let '(d, _) := takeDigits r' in
        match d with
        | [] => 0
        | _ => if neg then - digitsValue d else digitsValue d
        end
      else 0
  | [] => 0
  end.

(** [parseFloat]: leading white space is skipped, the longest prefix
    that is a [StrDecimalLiteral] is converted, and [NaN] is returned
    when there is none. *)
Definition parseFloat (s : string) : float :=
  let l := trimStartBytes (bytes s) in
  let '(neg, l1) :=
    match l with
    | b :: r => if b =? 45 then (true, r) else if b =? 43 then (false, r) else (false, l)
    | [] => (false, l)
    end in
  if startsWith (bytes "Infinity") l1 then (if neg then neg_infinity else infinity)
  else
    let '(ip, l2) := takeDigits l1 in
    let '(fp, l3) :=
      match l2 with
      | b :: r => if b =? 46 then takeDigits r else ([], l2)
      | [] => ([], l2)
      end in
    match ip, fp with
    | [], [] => NaN
    | _, _ =>
        decimalToFloat neg (digitsValue (ip ++ fp))
                       (exponentPart l3 - Z.of_nat (length fp))
    end.

(** Comparison of [a * 10 ^ p] with [b * 2 ^ q], on integers. *)
Definition cmpScaled (a p b q : Z) : comparison :=
  (a * 10 ^ Z.max p 0 * 2 ^ Z.max (- q) 0
   ?= b * 2 ^ Z.max q 0 * 10 ^ Z.max (- p) 0).

(** [floor (b * 2 ^ q / 10 ^ p)]. *)
Definition floorScaled (b q p : Z) : Z :=
  (b * 2 ^ Z.max q 0 * 10 ^ Z.max (- p) 0)
  / (2 ^ Z.max (- q) 0 * 10 ^ Z.max p 0).

(** The least [n], from [n0] on, with [b * 2 ^ q < 10 ^ n]. *)
Fixpoint decimalExponent (fuel : nat) (b q n0 : Z) : Z :=
  match fuel with
  | O => n0
  | S fuel' =>
      match cmpScaled 1 n0 b q with
      | Gt => n0
      | _ => decimalExponent fuel' b q (n0 + 1)
      end
  end.

Fixpoint digitsOf (fuel : nat) (s : Z) (acc : list Z) : list Z :=
  match fuel with
  | O => acc
  | S fuel' =>
      if s <? 10 then (48 + s) :: acc
      else digitsOf fuel' (s / 10) ((48 + s mod 10) :: acc)
  end.

Definition decimalDigits (s : Z) : list Z :=
  digitsOf (S (Z.to_nat (Z.log2 s))) s [].

(** The pairs [(s, n)] with [s] of [k] digits for which
    [s * 10 ^ (n - k)] rounds to the number of value [v * 2 ^ q], whose
    rounding interval is [lo * 2 ^ q .. hi * 2 ^ q] (closed when
    [closed]); [n0] is the decimal exponent of the value. *)
Definition candidates (closed : bool) (lo v hi q n0 k : Z) : list (Z * Z) :=
  let inside (s p : Z) :=
    match cmpScaled s p lo q, cmpScaled s p hi q with
    | Gt, Lt => true
    | Eq, _ | _, Eq => closed
    | _, _ => false
    end in
  let at_n (n : Z) :=
    let p := n - k in
    let f := floorScaled v q p in
    List.filter
      (fun c => (10 ^ (k - 1) <=? fst c) && (fst c <? 10 ^ k) && inside (fst c) p)
      [(f, n); (f + 1, n)] in
  at_n (n0 - 1) ++ at_n n0 ++ at_n (n0 + 1).

(** Of two such pairs the one nearer to [v * 2 ^ q], the even [s] on a
    tie. *)
Definition nearer (v q n0 k : Z) (c1 c2 : Z * Z) : Z * Z :=
  let pmin := n0 - 1 - k in
  let dist (c : Z * Z) :=
    Z.abs (fst c * 10 ^ (snd c - k - pmin) * 10 ^ Z.max pmin 0 * 2 ^ Z.max (- q) 0
           - v * 2 ^ Z.max q 0 * 10 ^ Z.max (- pmin) 0) in
  match dist c1 ?= dist c2 with
  | Lt => c1
  | Gt => c2
  | Eq => if Z.even (fst c1) then c1 else c2
  end.

Fixpoint shortestFrom (fuel : nat) (closed : bool) (lo v hi q n0 k : Z) : Z * Z :=
  match fuel with
  | O => (floorScaled v q (n0 - k), n0)
  | S fuel' =>
      match candidates closed lo v hi q n0 k with
      | [] => shortestFrom fuel' closed lo v hi q n0 (k + 1)
      | c :: cs => fold_left (nearer v q n0 k) cs c
      end
  end.

(** The digits [s] and the exponent [n] of [Number::toString] for the
    finite positive number [m * 2 ^ e] in canonical form. *)
Definition shortest (m e : Z) : Z * Z :=
  let v := 4 * m in
  let q := e - 2 in
  let lo := if (m =? 2 ^ 52) && (-1074 <? e) then v - 1 else v - 2 in
  let hi := v + 2 in
  let bits := Z.log2 v + 1 + q in
  let n0 := decimalExponent 8 v q ((bits - 1) * 30103 / 100000 - 1) in
  shortestFrom 17 (Z.even m) lo v hi q n0 1.

Definition formatDecimal (digits : list Z) (n : Z) : list Z :=
  let k := Z.of_nat (length digits) in
  if (k <=? n) && (n <=? 21) then digits ++ repeat 48 (Z.to_nat (n - k))
  else if (0 <? n) && (n <=? 21) then
    firstn (Z.to_nat n) digits ++ [46] ++ skipn (Z.to_nat n) digits
  else if (-6 <? n) && (n <=? 0) then
    [48; 46] ++ repeat 48 (Z.to_nat (- n)) ++ digits
  else
    let e := n - 1 in
    let sign := if 0 <=? e then 43 else 45 in
    match digits with
    | [] => []
    | [d] => [d; 101; sign] ++ decimalDigits (Z.abs e)
    | d :: rest => d :: 46 :: rest ++ [101; sign] ++ decimalDigits (Z.abs e)
    end.

(** [Number.prototype.toString] with no radix. *)
Definition numberToString (x : float) : string :=
  match Prim2SF x with
  | S754_nan => "NaN"
  | S754_zero _ => "0"
  | S754_infinity sg => if sg then "-Infinity" else "Infinity"
  | S754_finite sg m e =>
      let '(s, n) := shortest (Zpos m) e in
      let body := unbytes (formatDecimal (decimalDigits s) n) in
      if sg then String "-" body else body
  end.

(** The integer nearest to [m * 2 ^ e * 10 ^ f], the larger one on a tie,
printed with a point before its last [f] digits. *)
Definition fixedDigits (f m e : Z) : list Z :=
  let num := m * 2 ^ Z.max e 0 * 10 ^ f in
  let den := 2 ^ Z.max (- e) 0 in
  let n := (2 * num + den) / (2 * den) in
  let digits := decimalDigits n in
  let k := Z.of_nat (length digits) in
  let padded : list Z := (repeat 48 (Z.to_nat (f + 1 - k)) ++ digits)%list in
  let cut := (length padded - Z.to_nat f)%nat in
  if f =? 0 then padded
  else (firstn cut padded ++ [46] ++ skipn cut padded)%list.

(** [Number.prototype.toFixed] with [f] fraction digits, [0 <= f];
[Number::toString] takes over from [10 ^ 21] on. *)
Definition toFixed (f : Z) (x : float) : string :=
  match Prim2SF x with
  | S754_nan => "NaN"
  | S754_infinity sg => if sg then "-Infinity" else "Infinity"
  | S754_zero _ => unbytes (fixedDigits f 0 0)
  | S754_finite sg m e =>
      match cmpScaled 1 21 (Zpos m) e with
      | Gt =>
          let body := unbytes (fixedDigits f (Zpos m) e) in
          if sg then String "-" body else body
      | _ => numberToString x
      end
  end.

End JS.

(** ** Data model *)

(** A [Date] object, as milliseconds since the epoch. *)
Definition Date : Type := Z.

Module Assignment.
Record t : Type := mk {
  seatId : Z;
  shiftId : Z;
  seatNumber : string;
  shiftTitle : string
}.
End Assignment.

(** Of the [Student] interface the fields the dialog logic reads after the
    dialog is open: the id, the name and the optional assignments. *)
Module Student.
Record t : Type := mk {
  id : Z;
  name : string;
  assignments : option (list Assignment.t)
}.
End Student.

Module Seat.
Record t : Type := mk {
  id : Z;
  seatNumber : string;
  studentId : option Z
}.
End Seat.

Module Schedule.
Record t : Type := mk {
  id : Z;
  title : string;
  fee : float
}.
End Schedule.

Module ShiftOption.
Record t : Type := mk {
  value : Z;
  label : string;
  fee : float;
  isDisabled : option bool
}.
End ShiftOption.

Module Locker.
Record t : Type := mk {
  id : Z;
  lockerNumber : string;
  isAssigned : bool;
  studentId : option Z
}.
End Locker.

(** The [{ value, label }] objects given to the seat, locker and branch
    selects; [value] is [null] for the "None" entry. *)
Module SelectOption.
Record t : Type := mk {
  value : option Z;
  label : string
}.
End SelectOption.

(** [o?.value] for a selection that may be [null]. *)
Definition optValue (o : option SelectOption.t) : option Z :=
  match o with
  | Some x => SelectOption.value x
  | None => None
  end.

(** The object passed to [api.renewStudent].  A field that evaluates to
    [undefined] is [None]; [seatId] and [lockerId] may also hold the
    [null] value of the "None" entry, which is [Some None]. *)
Module RenewPayload.
Record t : Type := mk {
  name : string;
  registrationNumber : string;
  fatherName : string;
  aadharNumber : string;
  address : string;
  membershipStart : Date;
  membershipEnd : Date;
  email : string;
  phone : string;
  branchId : Z;
  shiftIds : list Z;
  seatId : option (option Z);
  lockerId : option (option Z);
  lockerFee : float;
  discount : option float;
  totalFee : float;
  cash : float;
  online : float;
  securityMoney : float;
  remark : option string
}.
End RenewPayload.

(** What a rejected request carries: [err.message] and
    [err.response?.data?.message]. *)
Module ApiError.
Record t : Type := mk {
  message : option string;
  responseMessage : option string
}.
End ApiError.

Inductive Answer (A : Type) : Type :=
| Resolved (a : A)
| Rejected (e : ApiError.t).

Arguments Resolved {A} a.
Arguments Rejected {A} e.

(** What a handler or an effect does besides updating the state. *)
Inductive Event : Type :=
| toast_error (msg : string)
| toast_success (msg : string)
| console_error (msg : string)
| api_getSeats (branchId : Z)
| api_getLockers (branchId : Z)
| api_getAvailableShifts (seatId : Z)
| api_renewStudent (id : Z) (payload : RenewPayload.t)
| api_getExpiredMemberships (branchId : option Z).

(** ** The component state: one field per [useState] hook of the dialog *)

Record State : Type := mkState {
  students : list Student.t;
  renewDialogOpen : bool;
  selectedStudent : option Student.t;
  selectedBranchFilter : option SelectOption.t;
  nameInput : string;
  registrationNumberInput : string;
  fatherNameInput : string;
  aadharNumberInput : string;
  addressInput : string;
  emailInput : string;
  phoneInput : string;
  startDate : option Date;
  endDate : option Date;
  allShifts : list ShiftOption.t;
  shiftOptions : list ShiftOption.t;
  seatOptions : list SelectOption.t;
  branchOptions : list SelectOption.t;
  lockerOptions : list SelectOption.t;
  selectedShifts : list ShiftOption.t;
  selectedSeat : option SelectOption.t;
  selectedBranch : option SelectOption.t;
  selectedLocker : option SelectOption.t;
  totalFee : string;
  cash : string;
  online : string;
  securityMoney : string;
  remark : string;
  discount : string;
  lockerFee : string;
  loadingSeats : bool;
  loadingShifts : bool;
  loadingLockers : bool
}.

(** The setters returned by [useState]. *)

Definition setStudents (v : list Student.t) (st : State) : State :=
  {|
    students := v; renewDialogOpen := renewDialogOpen st;
    selectedStudent := selectedStudent st;
    selectedBranchFilter := selectedBranchFilter st;
    nameInput := nameInput st;
    registrationNumberInput := registrationNumberInput st;
    fatherNameInput := fatherNameInput st;
    aadharNumberInput := aadharNumberInput st;
    addressInput := addressInput st; emailInput := emailInput st;
    phoneInput := phoneInput st; startDate := startDate st;
    endDate := endDate st; allShifts := allShifts st;
    shiftOptions := shiftOptions st; seatOptions := seatOptions st;
    branchOptions := branchOptions st; lockerOptions := lockerOptions st;
    selectedShifts := selectedShifts st; selectedSeat := selectedSeat st;
    selectedBranch := selectedBranch st; selectedLocker := selectedLocker st;
    totalFee := totalFee st; cash := cash st; online := online st;
    securityMoney := securityMoney st; remark := remark st;
    discount := discount st; lockerFee := lockerFee st;
    loadingSeats := loadingSeats st; loadingShifts := loadingShifts st;
    loadingLockers := loadingLockers st
  |}.

Definition setRenewDialogOpen (v : bool) (st : State) : State :=
  {|
    students := students st; renewDialogOpen := v;
    selectedStudent := selectedStudent st;
    selectedBranchFilter := selectedBranchFilter st;
    nameInput := nameInput st;
    registrationNumberInput := registrationNumberInput st;
    fatherNameInput := fatherNameInput st;
    aadharNumberInput := aadharNumberInput st;
    addressInput := addressInput st; emailInput := emailInput st;
    phoneInput := phoneInput st; startDate := startDate st;
    endDate := endDate st; allShifts := allShifts st;
    shiftOptions := shiftOptions st; seatOptions := seatOptions st;
    branchOptions := branchOptions st; lockerOptions := lockerOptions st;
    selectedShifts := selectedShifts st; selectedSeat := selectedSeat st;
    selectedBranch := selectedBranch st; selectedLocker := selectedLocker st;
    totalFee := totalFee st; cash := cash st; online := online st;
    securityMoney := securityMoney st; remark := remark st;
    discount := discount st; lockerFee := lockerFee st;
    loadingSeats := loadingSeats st; loadingShifts := loadingShifts st;
    loadingLockers := loadingLockers st
  |}.

Definition setShiftOptions (v : list ShiftOption.t) (st : State) : State :=
  {|
    students := students st; renewDialogOpen := renewDialogOpen st;
    selectedStudent := selectedStudent st;
    selectedBranchFilter := selectedBranchFilter st;
    nameInput := nameInput st;
    registrationNumberInput := registrationNumberInput st;
    fatherNameInput := fatherNameInput st;
    aadharNumberInput := aadharNumberInput st;
    addressInput := addressInput st; emailInput := emailInput st;
    phoneInput := phoneInput st; startDate := startDate st;
    endDate := endDate st; allShifts := allShifts st; shiftOptions := v;
    seatOptions := seatOptions st; branchOptions := branchOptions st;
    lockerOptions := lockerOptions st; selectedShifts := selectedShifts st;
    selectedSeat := selectedSeat st; selectedBranch := selectedBranch st;
    selectedLocker := selectedLocker st; totalFee := totalFee st;
    cash := cash st; online := online st; securityMoney := securityMoney st;
    remark := remark st; discount := discount st; lockerFee := lockerFee st;
    loadingSeats := loadingSeats st; loadingShifts := loadingShifts st;
    loadingLockers := loadingLockers st
  |}.

Definition setSeatOptions (v : list SelectOption.t) (st : State) : State :=
  {|
    students := students st; renewDialogOpen := renewDialogOpen st;
    selectedStudent := selectedStudent st;
    selectedBranchFilter := selectedBranchFilter st;
    nameInput := nameInput st;
    registrationNumberInput := registrationNumberInput st;
    fatherNameInput := fatherNameInput st;
    aadharNumberInput := aadharNumberInput st;
    addressInput := addressInput st; emailInput := emailInput st;
    phoneInput := phoneInput st; startDate := startDate st;
    endDate := endDate st; allShifts := allShifts st;
    shiftOptions := shiftOptions st; seatOptions := v;
    branchOptions := branchOptions st; lockerOptions := lockerOptions st;
    selectedShifts := selectedShifts st; selectedSeat := selectedSeat st;
    selectedBranch := selectedBranch st; selectedLocker := selectedLocker st;
    totalFee := totalFee st; cash := cash st; online := online st;
    securityMoney := securityMoney st; remark := remark st;
    discount := discount st; lockerFee := lockerFee st;
    loadingSeats := loadingSeats st; loadingShifts := loadingShifts st;
    loadingLockers := loadingLockers st
  |}.

Definition setLockerOptions (v : list SelectOption.t) (st : State) : State :=
  {|
    students := students st; renewDialogOpen := renewDialogOpen st;
    selectedStudent := selectedStudent st;
    selectedBranchFilter := selectedBranchFilter st;
    nameInput := nameInput st;
    registrationNumberInput := registrationNumberInput st;
    fatherNameInput := fatherNameInput st;
    aadharNumberInput := aadharNumberInput st;
    addressInput := addressInput st; emailInput := emailInput st;
    phoneInput := phoneInput st; startDate := startDate st;
    endDate := endDate st; allShifts := allShifts st;
    shiftOptions := shiftOptions st; seatOptions := seatOptions st;
    branchOptions := branchOptions st; lockerOptions := v;
    selectedShifts := selectedShifts st; selectedSeat := selectedSeat st;
    selectedBranch := selectedBranch st; selectedLocker := selectedLocker st;
    totalFee := totalFee st; cash := cash st; online := online st;
    securityMoney := securityMoney st; remark := remark st;
    discount := discount st; lockerFee := lockerFee st;
    loadingSeats := loadingSeats st; loadingShifts := loadingShifts st;
    loadingLockers := loadingLockers st
  |}.

Definition setSelectedShifts (v : list ShiftOption.t) (st : State) : State :=
  {|
    students := students st; renewDialogOpen := renewDialogOpen st;
    selectedStudent := selectedStudent st;
    selectedBranchFilter := selectedBranchFilter st;
    nameInput := nameInput st;
    registrationNumberInput := registrationNumberInput st;
    fatherNameInput := fatherNameInput st;
    aadharNumberInput := aadharNumberInput st;
    addressInput := addressInput st; emailInput := emailInput st;
    phoneInput := phoneInput st; startDate := startDate st;
    endDate := endDate st; allShifts := allShifts st;
    shiftOptions := shiftOptions st; seatOptions := seatOptions st;
    branchOptions := branchOptions st; lockerOptions := lockerOptions st;
    selectedShifts := v; selectedSeat := selectedSeat st;
    selectedBranch := selectedBranch st; selectedLocker := selectedLocker st;
    totalFee := totalFee st; cash := cash st; online := online st;
    securityMoney := securityMoney st; remark := remark st;
    discount := discount st; lockerFee := lockerFee st;
    loadingSeats := loadingSeats st; loadingShifts := loadingShifts st;
    loadingLockers := loadingLockers st
  |}.

Definition setSelectedSeat (v : option SelectOption.t) (st : State) : State :=
  {|
    students := students st; renewDialogOpen := renewDialogOpen st;
    selectedStudent := selectedStudent st;
    selectedBranchFilter := selectedBranchFilter st;
    nameInput := nameInput st;
    registrationNumberInput := registrationNumberInput st;
    fatherNameInput := fatherNameInput st;
    aadharNumberInput := aadharNumberInput st;
    addressInput := addressInput st; emailInput := emailInput st;
    phoneInput := phoneInput st; startDate := startDate st;
    endDate := endDate st; allShifts := allShifts st;
    shiftOptions := shiftOptions st; seatOptions := seatOptions st;
    branchOptions := branchOptions st; lockerOptions := lockerOptions st;
    selectedShifts := selectedShifts st; selectedSeat := v;
    selectedBranch := selectedBranch st; selectedLocker := selectedLocker st;
    totalFee := totalFee st; cash := cash st; online := online st;
    securityMoney := securityMoney st; remark := remark st;
    discount := discount st; lockerFee := lockerFee st;
    loadingSeats := loadingSeats st; loadingShifts := loadingShifts st;
    loadingLockers := loadingLockers st
  |}.

Definition setSelectedBranch (v : option SelectOption.t) (st : State) : State :=
  {|
    students := students st; renewDialogOpen := renewDialogOpen st;
    selectedStudent := selectedStudent st;
    selectedBranchFilter := selectedBranchFilter st;
    nameInput := nameInput st;
    registrationNumberInput := registrationNumberInput st;
    fatherNameInput := fatherNameInput st;
    aadharNumberInput := aadharNumberInput st;
    addressInput := addressInput st; emailInput := emailInput st;
    phoneInput := phoneInput st; startDate := startDate st;
    endDate := endDate st; allShifts := allShifts st;
    shiftOptions := shiftOptions st; seatOptions := seatOptions st;
    branchOptions := branchOptions st; lockerOptions := lockerOptions st;
    selectedShifts := selectedShifts st; selectedSeat := selectedSeat st;
    selectedBranch := v; selectedLocker := selectedLocker st;
    totalFee := totalFee st; cash := cash st; online := online st;
    securityMoney := securityMoney st; remark := remark st;
    discount := discount st; lockerFee := lockerFee st;
    loadingSeats := loadingSeats st; loadingShifts := loadingShifts st;
    loadingLockers := loadingLockers st
  |}.

Definition setSelectedLocker (v : option SelectOption.t) (st : State) : State :=
  {|
    students := students st; renewDialogOpen := renewDialogOpen st;
    selectedStudent := selectedStudent st;
    selectedBranchFilter := selectedBranchFilter st;
    nameInput := nameInput st;
    registrationNumberInput := registrationNumberInput st;
    fatherNameInput := fatherNameInput st;
    aadharNumberInput := aadharNumberInput st;
    addressInput := addressInput st; emailInput := emailInput st;
    phoneInput := phoneInput st; startDate := startDate st;
    endDate := endDate st; allShifts := allShifts st;
    shiftOptions := shiftOptions st; seatOptions := seatOptions st;
    branchOptions := branchOptions st; lockerOptions := lockerOptions st;
    selectedShifts := selectedShifts st; selectedSeat := selectedSeat st;
    selectedBranch := selectedBranch st; selectedLocker := v;
    totalFee := totalFee st; cash := cash st; online := online st;
    securityMoney := securityMoney st; remark := remark st;
    discount := discount st; lockerFee := lockerFee st;
    loadingSeats := loadingSeats st; loadingShifts := loadingShifts st;
    loadingLockers := loadingLockers st
  |}.

Definition setTotalFee (v : string) (st : State) : State :=
  {|
    students := students st; renewDialogOpen := renewDialogOpen st;
    selectedStudent := selectedStudent st;
    selectedBranchFilter := selectedBranchFilter st;
    nameInput := nameInput st;
    registrationNumberInput := registrationNumberInput st;
    fatherNameInput := fatherNameInput st;
    aadharNumberInput := aadharNumberInput st;
    addressInput := addressInput st; emailInput := emailInput st;
    phoneInput := phoneInput st; startDate := startDate st;
    endDate := endDate st; allShifts := allShifts st;
    shiftOptions := shiftOptions st; seatOptions := seatOptions st;
    branchOptions := branchOptions st; lockerOptions := lockerOptions st;
    selectedShifts := selectedShifts st; selectedSeat := selectedSeat st;
    selectedBranch := selectedBranch st; selectedLocker := selectedLocker st;
    totalFee := v; cash := cash st; online := online st;
    securityMoney := securityMoney st; remark := remark st;
    discount := discount st; lockerFee := lockerFee st;
    loadingSeats := loadingSeats st; loadingShifts := loadingShifts st;
    loadingLockers := loadingLockers st
  |}.

Definition setLockerFee (v : string) (st : State) : State :=
  {|
    students := students st; renewDialogOpen := renewDialogOpen st;
    selectedStudent := selectedStudent st;
    selectedBranchFilter := selectedBranchFilter st;
    nameInput := nameInput st;
    registrationNumberInput := registrationNumberInput st;
    fatherNameInput := fatherNameInput st;
    aadharNumberInput := aadharNumberInput st;
    addressInput := addressInput st; emailInput := emailInput st;
    phoneInput := phoneInput st; startDate := startDate st;
    endDate := endDate st; allShifts := allShifts st;
    shiftOptions := shiftOptions st; seatOptions := seatOptions st;
    branchOptions := branchOptions st; lockerOptions := lockerOptions st;
    selectedShifts := selectedShifts st; selectedSeat := selectedSeat st;
    selectedBranch := selectedBranch st; selectedLocker := selectedLocker st;
    totalFee := totalFee st; cash := cash st; online := online st;
    securityMoney := securityMoney st; remark := remark st;
    discount := discount st; lockerFee := v; loadingSeats := loadingSeats st;
    loadingShifts := loadingShifts st; loadingLockers := loadingLockers st
  |}.

Definition setDiscount (v : string) (st : State) : State :=
  {|
    students := students st; renewDialogOpen := renewDialogOpen st;
    selectedStudent := selectedStudent st;
    selectedBranchFilter := selectedBranchFilter st;
    nameInput := nameInput st;
    registrationNumberInput := registrationNumberInput st;
    fatherNameInput := fatherNameInput st;
    aadharNumberInput := aadharNumberInput st;
    addressInput := addressInput st; emailInput := emailInput st;
    phoneInput := phoneInput st; startDate := startDate st;
    endDate := endDate st; allShifts := allShifts st;
    shiftOptions := shiftOptions st; seatOptions := seatOptions st;
    branchOptions := branchOptions st; lockerOptions := lockerOptions st;
    selectedShifts := selectedShifts st; selectedSeat := selectedSeat st;
    selectedBranch := selectedBranch st; selectedLocker := selectedLocker st;
    totalFee := totalFee st; cash := cash st; online := online st;
    securityMoney := securityMoney st; remark := remark st;
    discount := v; lockerFee := lockerFee st; loadingSeats := loadingSeats st;
    loadingShifts := loadingShifts st; loadingLockers := loadingLockers st
  |}.

Definition setLoadingSeats (v : bool) (st : State) : State :=
  {|
    students := students st; renewDialogOpen := renewDialogOpen st;
    selectedStudent := selectedStudent st;
    selectedBranchFilter := selectedBranchFilter st;
    nameInput := nameInput st;
    registrationNumberInput := registrationNumberInput st;
    fatherNameInput := fatherNameInput st;
    aadharNumberInput := aadharNumberInput st;
    addressInput := addressInput st; emailInput := emailInput st;
    phoneInput := phoneInput st; startDate := startDate st;
    endDate := endDate st; allShifts := allShifts st;
    shiftOptions := shiftOptions st; seatOptions := seatOptions st;
    branchOptions := branchOptions st; lockerOptions := lockerOptions st;
    selectedShifts := selectedShifts st; selectedSeat := selectedSeat st;
    selectedBranch := selectedBranch st; selectedLocker := selectedLocker st;
    totalFee := totalFee st; cash := cash st; online := online st;
    securityMoney := securityMoney st; remark := remark st;
    discount := discount st; lockerFee := lockerFee st; loadingSeats := v;
    loadingShifts := loadingShifts st; loadingLockers := loadingLockers st
  |}.

Definition setLoadingShifts (v : bool) (st : State) : State :=
  {|
    students := students st; renewDialogOpen := renewDialogOpen st;
    selectedStudent := selectedStudent st;
    selectedBranchFilter := selectedBranchFilter st;
    nameInput := nameInput st;
    registrationNumberInput := registrationNumberInput st;
    fatherNameInput := fatherNameInput st;
    aadharNumberInput := aadharNumberInput st;
    addressInput := addressInput st; emailInput := emailInput st;
    phoneInput := phoneInput st; startDate := startDate st;
    endDate := endDate st; allShifts := allShifts st;
    shiftOptions := shiftOptions st; seatOptions := seatOptions st;
    branchOptions := branchOptions st; lockerOptions := lockerOptions st;
    selectedShifts := selectedShifts st; selectedSeat := selectedSeat st;
    selectedBranch := selectedBranch st; selectedLocker := selectedLocker st;
    totalFee := totalFee st; cash := cash st; online := online st;
    securityMoney := securityMoney st; remark := remark st;
    discount := discount st; lockerFee := lockerFee st;
    loadingSeats := loadingSeats st; loadingShifts := v;
    loadingLockers := loadingLockers st
  |}.

Definition setLoadingLockers (v : bool) (st : State) : State :=
  {|
    students := students st; renewDialogOpen := renewDialogOpen st;
    selectedStudent := selectedStudent st;
    selectedBranchFilter := selectedBranchFilter st;
    nameInput := nameInput st;
    registrationNumberInput := registrationNumberInput st;
    fatherNameInput := fatherNameInput st;
    aadharNumberInput := aadharNumberInput st;
    addressInput := addressInput st; emailInput := emailInput st;
    phoneInput := phoneInput st; startDate := startDate st;
    endDate := endDate st; allShifts := allShifts st;
    shiftOptions := shiftOptions st; seatOptions := seatOptions st;
    branchOptions := branchOptions st; lockerOptions := lockerOptions st;
    selectedShifts := selectedShifts st; selectedSeat := selectedSeat st;
    selectedBranch := selectedBranch st; selectedLocker := selectedLocker st;
    totalFee := totalFee st; cash := cash st; online := online st;
    securityMoney := securityMoney st; remark := remark st;
    discount := discount st; lockerFee := lockerFee st;
    loadingSeats := loadingSeats st; loadingShifts := loadingShifts st;
    loadingLockers := v
  |}.

(** ** Effects

    An effect runs after a render in which one of its dependencies
    changed.  Its asynchronous part is given the answer of the remote
    call as an argument and yields the state once the answer has been
    applied, with the trace of calls and messages. *)

Definition noneOption : SelectOption.t :=
  {| SelectOption.value := None; SelectOption.label := "None" |}.

(** The filter on the seats of a branch:
    [!seat.studentId || seat.studentId === selectedStudent.id]. *)
Definition seatAvailable (subject : Z) (seat : Seat.t) : bool :=
  negb (JS.truthyOptId (Seat.studentId seat))
  || bool_decide (Seat.studentId seat = Some subject).

(** The filter on the lockers of a branch:
    [!locker.isAssigned || locker.studentId === selectedStudent.id]. *)
Definition lockerAvailable (subject : Z) (locker : Locker.t) : bool :=
  negb (Locker.isAssigned locker)
  || bool_decide (Locker.studentId locker = Some subject).

Definition seatOption (seat : Seat.t) : SelectOption.t :=
  {| SelectOption.value := Some (Seat.id seat);
     SelectOption.label := Seat.seatNumber seat |}.

Definition lockerOption (locker : Locker.t) : SelectOption.t :=
  {| SelectOption.value := Some (Locker.id locker);
     SelectOption.label := Locker.lockerNumber locker |}.

(** The effect on [selectedBranch], [selectedStudent] and
    [renewDialogOpen]: seats and lockers of the chosen branch. *)
Definition fetchBranchSpecificData
    (ans : Answer (list Seat.t * list Locker.t)) (st : State)
    : State * list Event :=
  match optValue (selectedBranch st), selectedStudent st with
  | Some branchId, Some student =>
      if JS.truthyId branchId then
        let st := setLoadingLockers true (setLoadingSeats true st) in
        let calls := [api_getSeats branchId; api_getLockers branchId] in
        let finally (st : State) := setLoadingLockers false (setLoadingSeats false st) in
        match ans with
        | Resolved (allSeats, allLockerItems) =>
            let availableSeats :=
              List.filter (seatAvailable (Student.id student)) allSeats in
            let st := setSeatOptions (noneOption :: map seatOption availableSeats) st in
            let availableLockers :=
              List.filter (lockerAvailable (Student.id student)) allLockerItems in
            let st := setLockerOptions (noneOption :: map lockerOption availableLockers) st in
            (finally st, calls)
        | Rejected _ =>
            (finally st,
             (calls ++ [console_error "Error fetching seats and lockers for branch:";
                        toast_error "Failed to fetch seats and lockers"])%list)
        end
      else (setLockerOptions [noneOption] (setSeatOptions [noneOption] st), [])
  | _, _ => (setLockerOptions [noneOption] (setSeatOptions [noneOption] st), [])
  end.

Definition branchEffect
    (ans : Answer (list Seat.t * list Locker.t)) (st : State)
    : State * list Event :=
  if renewDialogOpen st then fetchBranchSpecificData ans st else (st, []).

(** [selectedStudent?.assignments?.map(a => a.shiftId) ?? []]. *)
Definition studentCurrentShiftIds (student : option Student.t) : list Z :=
  match student with
  | Some s =>
      match Student.assignments s with
      | Some l => map Assignment.shiftId l
      | None => []
      end
  | None => []
  end.

(** The set built from the answer of [api.getAvailableShifts] and then
    extended with the shift ids of the student's assignments. *)
Definition availableShiftIds
    (availableShifts : list Schedule.t) (student : option Student.t) : gset Z :=
  list_to_set (map Schedule.id availableShifts)
  ∪ list_to_set (studentCurrentShiftIds student).

Definition has (ids : gset Z) (x : Z) : bool := bool_decide (x ∈ ids).

(** [{ ...s, isDisabled: false }]. *)
Definition enabled (s : ShiftOption.t) : ShiftOption.t :=
  {| ShiftOption.value := ShiftOption.value s;
     ShiftOption.label := ShiftOption.label s;
     ShiftOption.fee := ShiftOption.fee s;
     ShiftOption.isDisabled := Some false |}.

(** The option shown for a shift of the catalog once the available ids
    are known: the title, annotated, and the [isDisabled] flag. *)
Definition annotated (ids : gset Z) (shift : ShiftOption.t) : ShiftOption.t :=
  {| ShiftOption.value := ShiftOption.value shift;
     ShiftOption.label :=
       JS.splitHead " - " (ShiftOption.label shift) +:+ " "
       +:+ (if has ids (ShiftOption.value shift) then "(Available)" else "(Assigned)");
     ShiftOption.fee := ShiftOption.fee shift;
     ShiftOption.isDisabled := Some (negb (has ids (ShiftOption.value shift))) |}.

(** The effect on [selectedSeat], [allShifts], [selectedStudent] and
    [renewDialogOpen]: shifts still free for the chosen seat. *)
Definition fetchAvailableShiftsForSeat
    (ans : Answer (list Schedule.t)) (st : State) : State * list Event :=
  match optValue (selectedSeat st) with
  | Some seatId =>
      if JS.truthyId seatId then
        let st := setLoadingShifts true st in
        let calls := [api_getAvailableShifts seatId] in
        match ans with
        | Resolved availableShifts =>
            let ids := availableShiftIds availableShifts (selectedStudent st) in
            let newShiftOptions := map (annotated ids) (allShifts st) in
            let st := setShiftOptions newShiftOptions st in
            let st :=
              setSelectedShifts
                (List.filter (fun s => has ids (ShiftOption.value s)) (selectedShifts st))
                st in
            (setLoadingShifts false st, calls)
        | Rejected _ =>
            (setLoadingShifts false st,
             (calls ++ [console_error "Failed to fetch available shifts:";
                        toast_error "Failed to load available shifts."])%list)
        end
      else (setShiftOptions (map enabled (allShifts st)) st, [])
  | None => (setShiftOptions (map enabled (allShifts st)) st, [])
  end.

Definition shiftsEffect (ans : Answer (list Schedule.t)) (st : State)
    : State * list Event :=
  if renewDialogOpen st then fetchAvailableShiftsForSeat ans st else (st, []).

(** The fee charged for the shift [shiftId]: the [fee] of the first entry
    of the catalog with that id, and [0] when there is none. *)
Definition shiftFee (catalog : list ShiftOption.t) (shiftId : Z) : float :=
  match List.find (fun shift => ShiftOption.value shift =? shiftId) catalog with
  | Some selectedShiftDetail => ShiftOption.fee selectedShiftDetail
  | None => 0%float
  end.

(** The effect on [selectedShifts] and [allShifts]: the membership fee is
    computed when exactly one shift is selected. *)
Definition feeEffect (st : State) : State :=
  match selectedShifts st with
  | [s] =>
      setTotalFee (JS.numberToString (shiftFee (allShifts st) (ShiftOption.value s))) st
  | _ => setTotalFee "0" st
  end.

(** ** Event handlers *)

(** The change handler of the seat select. *)
Definition handleSeatChange (option : option SelectOption.t) (st : State) : State :=
  setSelectedShifts [] (setSelectedSeat option st).

Definition handleLockerChange (option : option SelectOption.t) (st : State) : State :=
  let st := setSelectedLocker option st in
  match option with
  | None => setLockerFee "0" st
  | Some _ => st
  end.

(** [options] is [null] when the last shift is removed from the select. *)
Definition handleShiftChange (options : option (list ShiftOption.t)) (st : State) : State :=
  let newSelectedShifts := match options with Some l => l | None => [] end in
  setSelectedShifts newSelectedShifts st.

Definition truthyOpt {A : Type} (o : option A) : bool :=
  match o with Some _ => true | None => false end.

(** The guard at the head of [handleRenewSubmit]. *)
Definition requiredMissing (st : State) : bool :=
  negb (truthyOpt (selectedStudent st))
  || negb (truthyOpt (startDate st))
  || negb (truthyOpt (endDate st))
  || negb (JS.truthyStr (JS.trim (nameInput st)))
  || negb (JS.truthyStr (JS.trim (phoneInput st)))
  || negb (JS.truthyStr (JS.trim (addressInput st)))
  || negb (JS.truthyStr (totalFee st))
  || negb (JS.truthyOptId (optValue (selectedBranch st)))
  || (length (selectedShifts st) =? 0)%nat.

Definition validationMessage : string :=
  "Please fill all required fields. At least one shift must be selected.".

(** The object literal passed to [api.renewStudent].  [membershipStart]
    and [membershipEnd] hold the dates that the source renders with
    [format (_, 'yyyy-MM-dd')]. *)
Definition renewPayload (startDate endDate : Date) (branchId : Z) (st : State)
    : RenewPayload.t :=
  {| RenewPayload.name := nameInput st;
     RenewPayload.registrationNumber := registrationNumberInput st;
     RenewPayload.fatherName := fatherNameInput st;
     RenewPayload.aadharNumber := aadharNumberInput st;
     RenewPayload.address := addressInput st;
     RenewPayload.membershipStart := startDate;
     RenewPayload.membershipEnd := endDate;
     RenewPayload.email := emailInput st;
     RenewPayload.phone := phoneInput st;
     RenewPayload.branchId := branchId;
     RenewPayload.shiftIds := map ShiftOption.value (selectedShifts st);
     RenewPayload.seatId :=
       match selectedSeat st with
       | Some o => Some (SelectOption.value o)
       | None => None
       end;
     RenewPayload.lockerId :=
       match selectedLocker st with
       | Some o => Some (SelectOption.value o)
       | None => None
       end;
     RenewPayload.lockerFee := JS.orNum (JS.parseFloat (lockerFee st)) 0;
     RenewPayload.discount :=
       let d := JS.parseFloat (discount st) in
       if JS.truthyNum d then Some d else None;
     RenewPayload.totalFee := JS.parseFloat (totalFee st);
     RenewPayload.cash := JS.orNum (JS.parseFloat (cash st)) 0;
     RenewPayload.online := JS.orNum (JS.parseFloat (online st)) 0;
     RenewPayload.securityMoney := JS.orNum (JS.parseFloat (securityMoney st)) 0;
     RenewPayload.remark :=
       let r := JS.trim (remark st) in
       if JS.truthyStr r then Some r else None |}.

(** [err.response?.data?.message || 'Failed to renew membership']. *)
Definition renewErrorMessage (e : ApiError.t) : string :=
  match ApiError.responseMessage e with
  | Some m => if JS.truthyStr m then m else "Failed to renew membership"
  | None => "Failed to renew membership"
  end.

(** [renewAns] is the answer of [api.renewStudent] and [listAns] that of
    the [api.getExpiredMemberships] call that follows a successful
    renewal; neither is consulted when the guard returns early. *)
Definition handleRenewSubmit
    (renewAns : Answer unit) (listAns : Answer (list Student.t)) (st : State)
    : State * list Event :=
  match selectedStudent st, startDate st, endDate st, optValue (selectedBranch st) with
  | Some student, Some startDate, Some endDate, Some branchId =>
      if requiredMissing st then (st, [toast_error validationMessage])
      else
        let call :=
          api_renewStudent (Student.id student) (renewPayload startDate endDate branchId st) in
        match renewAns with
        | Rejected err =>
            (st, [call; console_error "Renew error:"; toast_error (renewErrorMessage err)])
        | Resolved _ =>
            let done :=
              [call;
               toast_success ("Membership renewed for " +:+ Student.name student);
               api_getExpiredMemberships (optValue (selectedBranchFilter st))] in
            let st := setRenewDialogOpen false st in
            match listAns with
            | Resolved resp => (setStudents resp st, done)
            | Rejected err =>
                (st, (done ++ [console_error "Renew error:";
                               toast_error (renewErrorMessage err)])%list)
            end
        end
  | _, _, _, _ => (st, [toast_error validationMessage])
  end.

(** ** Values derived on every render *)

Definition cashAmount (st : State) : float := JS.orNum (JS.parseFloat (cash st)) 0.
Definition onlineAmount (st : State) : float := JS.orNum (JS.parseFloat (online st)) 0.
Definition paid (st : State) : float := (cashAmount st + onlineAmount st)%float.
Definition discountAmount (st : State) : float := JS.orNum (JS.parseFloat (discount st)) 0.
Definition due (st : State) : float :=
  (JS.orNum (JS.parseFloat (totalFee st)) 0 - discountAmount st - paid st)%float.
Definition isFeeReadOnly (st : State) : bool := (length (selectedShifts st) =? 1)%nat.

(** The contents of the read-only "Amount Paid" and "Due Amount" fields. *)
Definition paidField (st : State) : string := JS.toFixed 2 (paid st).
Definition dueField (st : State) : string := JS.toFixed 2 (due st).

(** ** Transitions of the selection state

    A transition is a handler followed by the effects of the renders it
    causes, in the order of their declaration in the component. *)

(** The branch select calls [setSelectedBranch] directly; the branch
    effect follows. *)
Definition setBranch
    (option : option SelectOption.t) (ans : Answer (list Seat.t * list Locker.t))
    (st : State) : State * list Event :=
  branchEffect ans (setSelectedBranch option st).

(** The seat handler replaces [selectedSeat] and [selectedShifts], so the
    shift effect and the fee effect both run; the fee effect runs again
    after the render in which the answer is applied. *)
Definition setSeat
    (option : option SelectOption.t) (ans : Answer (list Schedule.t))
    (st : State) : State * list Event :=
  let st := feeEffect (handleSeatChange option st) in
  let '(st, trace) := shiftsEffect ans st in
  (feeEffect st, trace).

Definition setShifts (options : option (list ShiftOption.t)) (st : State) : State :=
  feeEffect (handleShiftChange options st).

Definition setLocker (option : option SelectOption.t) (st : State) : State :=
  handleLockerChange option st.

(** The shift effect followed by the fee effect, as they run when a
    dependency of the shift effect changes without the seat handler, for
    instance when the dialog opens on the student's current seat and
    shifts. *)
Definition resolveShifts (ans : Answer (list Schedule.t)) (st : State)
    : State * list Event :=
  let '(st, trace) := shiftsEffect ans st in
  (feeEffect st, trace).

(** The shift ids the options mark as selectable. *)
Definition eligible (options : list ShiftOption.t) (shiftId : Z) : bool :=
  existsb (fun o => (ShiftOption.value o =? shiftId)
                    && negb (bool_decide (ShiftOption.isDisabled o = Some true)))
          options.

(** ** Sample data

    A catalog of three shifts, a student who holds shift 2 on seat 10, and
    the dialog as it stands for that student. *)

Definition morning : ShiftOption.t :=
  {| ShiftOption.value := 1; ShiftOption.label := "Morning - [Fee: 300]";
     ShiftOption.fee := 300; ShiftOption.isDisabled := None |}.
Definition evening : ShiftOption.t :=
  {| ShiftOption.value := 2; ShiftOption.label := "Evening - [Fee: 400]";
     ShiftOption.fee := 400; ShiftOption.isDisabled := None |}.
Definition night : ShiftOption.t :=
  {| ShiftOption.value := 3; ShiftOption.label := "Night - [Fee: 500]";
     ShiftOption.fee := 500; ShiftOption.isDisabled := None |}.

(** A shift option that no catalog entry describes. *)
Definition weekend : ShiftOption.t :=
  {| ShiftOption.value := 5; ShiftOption.label := "Weekend";
     ShiftOption.fee := 300; ShiftOption.isDisabled := None |}.

Definition student7 : Student.t :=
  {| Student.id := 7; Student.name := "Asha";
     Student.assignments :=
       Some [ {| Assignment.seatId := 10; Assignment.shiftId := 2;
                 Assignment.seatNumber := "S0"; Assignment.shiftTitle := "Evening" |} ] |}.

Definition branchB1 : SelectOption.t :=
  {| SelectOption.value := Some 1; SelectOption.label := "B1" |}.
Definition branchB2 : SelectOption.t :=
  {| SelectOption.value := Some 2; SelectOption.label := "B2" |}.
Definition seatS0 : SelectOption.t :=
  {| SelectOption.value := Some 10; SelectOption.label := "S0" |}.
Definition seatS1 : SelectOption.t :=
  {| SelectOption.value := Some 11; SelectOption.label := "S1" |}.
Definition lockerL4 : SelectOption.t :=
  {| SelectOption.value := Some 4; SelectOption.label := "L4" |}.

Definition dialog : State :=
  {| students := [student7];
     renewDialogOpen := true;
     selectedStudent := Some student7;
     selectedBranchFilter := None;
     nameInput := "Asha";
     registrationNumberInput := "R-7";
     fatherNameInput := "";
     aadharNumberInput := "";
     addressInput := "12 Lake Road";
     emailInput := "asha@example.org";
     phoneInput := "9000000007";
     startDate := Some 1793577600000;
     endDate := Some 1796169600000;
     allShifts := [morning; evening; night];
     shiftOptions := [morning; evening; night];
     seatOptions := [noneOption; seatS0; seatS1];
     branchOptions := [branchB1; branchB2];
     lockerOptions := [noneOption; lockerL4];
     selectedShifts := [evening];
     selectedSeat := Some seatS0;
     selectedBranch := Some branchB1;
     selectedLocker := Some lockerL4;
     totalFee := "500";
     cash := "200";
     online := "100";
     securityMoney := "0";
     remark := "";
     discount := "50";
     lockerFee := "0";
     loadingSeats := false;
     loadingShifts := false;
     loadingLockers := false |}.

(** The same dialog after the user has picked the morning shift alone. *)
Definition dialogMorning : State := setShifts (Some [morning]) dialog.

(** The seats of branch B1: S1 is free, S2 is held by student 7, S3 by
    student 9, and S4 carries the occupant id 0. *)
Definition seat1 : Seat.t :=
  {| Seat.id := 11; Seat.seatNumber := "S1"; Seat.studentId := None |}.
Definition seat2 : Seat.t :=
  {| Seat.id := 12; Seat.seatNumber := "S2"; Seat.studentId := Some 7 |}.
Definition seat3 : Seat.t :=
  {| Seat.id := 13; Seat.seatNumber := "S3"; Seat.studentId := Some 9 |}.
Definition seat4 : Seat.t :=
  {| Seat.id := 14; Seat.seatNumber := "S4"; Seat.studentId := Some 0 |}.
Definition seatsB1 : list Seat.t := [seat1; seat2; seat3; seat4].

(** The shifts that seat S1 reports as free: 1 and 3. *)
Definition freeOnS1 : list Schedule.t :=
  [ {| Schedule.id := 1; Schedule.title := "Morning"; Schedule.fee := 300 |};
    {| Schedule.id := 3; Schedule.title := "Night"; Schedule.fee := 500 |} ].

(** * The rest of the page

    The handlers and effects that surround the dialog: loading the
    catalog and the list of expired students, opening the dialog for a
    student, deleting a student and the WhatsApp link. *)

(** A value that may be [undefined] or [null]. *)
Inductive Nullable (A : Type) : Type :=
| undefined
| null
| defined (a : A).

Arguments undefined {A}.
Arguments null {A}.
Arguments defined {A} a.

(** An entry of the answer of [api.getSchedules]; the fee may be missing. *)
Module ApiSchedule.
Record t : Type := mk {
  id : Z;
  title : string;
  fee : Nullable float
}.
End ApiSchedule.

Module Branch.
Record t : Type := mk {
  id : Z;
  name : string
}.
End Branch.

(** The answer of [api.getStudent]: the fields of the [Student] interface
    that [handleRenewClick] reads. *)
Module StudentDetails.
Record t : Type := mk {
  id : Z;
  name : string;
  registrationNumber : option string;
  fatherName : option string;
  aadharNumber : option string;
  email : string;
  phone : string;
  address : option string;
  branchId : option Z;
  branchName : option string;
  totalFee : option float;
  lockerFee : option float;
  cash : option float;
  online : option float;
  securityMoney : option float;
  remark : option string;
  assignments : option (list Assignment.t);
  lockerId : option Z;
  lockerNumber : option string;
  discount : option float
}.
End StudentDetails.

(** What the page does besides what the dialog does. *)
Inductive PageEvent : Type :=
| form_event (e : Event)
| api_getSchedules
| api_getBranches
| api_getStudent (id : Z)
| api_deleteStudent (id : Z)
| window_confirm (msg : string)
| window_open (url target : string).

(** The state of the page: the state used by the dialog, the [loading]
    flag of the table and the options of the branch filter. *)
Record Page : Type := mkPage {
  form : State;
  loading : bool;
  branchFilterOptions : list SelectOption.t
}.

Definition setAllShifts (v : list ShiftOption.t) (st : State) : State :=
  {|
    students := students st; renewDialogOpen := renewDialogOpen st;
    selectedStudent := selectedStudent st;
    selectedBranchFilter := selectedBranchFilter st;
    nameInput := nameInput st;
    registrationNumberInput := registrationNumberInput st;
    fatherNameInput := fatherNameInput st;
    aadharNumberInput := aadharNumberInput st;
    addressInput := addressInput st; emailInput := emailInput st;
    phoneInput := phoneInput st; startDate := startDate st;
    endDate := endDate st; allShifts := v; shiftOptions := shiftOptions st;
    seatOptions := seatOptions st; branchOptions := branchOptions st;
    lockerOptions := lockerOptions st; selectedShifts := selectedShifts st;
    selectedSeat := selectedSeat st; selectedBranch := selectedBranch st;
    selectedLocker := selectedLocker st; totalFee := totalFee st;
    cash := cash st; online := online st; securityMoney := securityMoney st;
    remark := remark st; discount := discount st; lockerFee := lockerFee st;
    loadingSeats := loadingSeats st; loadingShifts := loadingShifts st;
    loadingLockers := loadingLockers st
  |}.

Definition setBranchOptions (v : list SelectOption.t) (st : State) : State :=
  {|
    students := students st; renewDialogOpen := renewDialogOpen st;
    selectedStudent := selectedStudent st;
    selectedBranchFilter := selectedBranchFilter st;
    nameInput := nameInput st;
    registrationNumberInput := registrationNumberInput st;
    fatherNameInput := fatherNameInput st;
    aadharNumberInput := aadharNumberInput st;
    addressInput := addressInput st; emailInput := emailInput st;
    phoneInput := phoneInput st; startDate := startDate st;
    endDate := endDate st; allShifts := allShifts st;
    shiftOptions := shiftOptions st; seatOptions := seatOptions st;
    branchOptions := v; lockerOptions := lockerOptions st;
    selectedShifts := selectedShifts st; selectedSeat := selectedSeat st;
    selectedBranch := selectedBranch st; selectedLocker := selectedLocker st;
    totalFee := totalFee st; cash := cash st; online := online st;
    securityMoney := securityMoney st; remark := remark st;
    discount := discount st; lockerFee := lockerFee st;
    loadingSeats := loadingSeats st; loadingShifts := loadingShifts st;
    loadingLockers := loadingLockers st
  |}.

(** [e.message || fallback]. *)
Definition messageOr (e : ApiError.t) (fallback : string) : string :=
  match ApiError.message e with
  | Some m => if JS.truthyStr m then m else fallback
  | None => fallback
  end.

(** ** Loading the catalog *)

(** [`${shift.fee}`] inside the label. *)
Definition feeText (fee : Nullable float) : string :=
  match fee with
  | undefined => "undefined"
  | null => "null"
  | defined x => JS.numberToString x
  end.

(** The option built for a schedule: the label shows title and fee, and a
    missing fee counts as 0. *)
Definition formatShift (shift : ApiSchedule.t) : ShiftOption.t :=
  {| ShiftOption.value := ApiSchedule.id shift;
     ShiftOption.label :=
       ApiSchedule.title shift +:+ " - [Fee: " +:+ feeText (ApiSchedule.fee shift) +:+ "]";
     ShiftOption.fee :=
       match ApiSchedule.fee shift with
       | defined x => x
       | _ => 0%float
       end;
     ShiftOption.isDisabled := None |}.

Definition branchOption (branch : Branch.t) : SelectOption.t :=
  {| SelectOption.value := Some (Branch.id branch);
     SelectOption.label := Branch.name branch |}.

Definition allBranchesOption : SelectOption.t :=
  {| SelectOption.value := None; SelectOption.label := "All Branches" |}.

(** The effect run once when the page is mounted: schedules and branches
    are requested together. *)
Definition fetchSupportingData
    (ans : Answer (list ApiSchedule.t * list Branch.t)) (pg : Page)
    : Page * list PageEvent :=
  let calls := [api_getSchedules; api_getBranches] in
  match ans with
  | Resolved (schedules, branchesResp) =>
      let formattedShifts := map formatShift schedules in
      let st := setShiftOptions formattedShifts (setAllShifts formattedShifts (form pg)) in
      let st := setBranchOptions (map branchOption branchesResp) st in
      ({| form := st;
          loading := loading pg;
          branchFilterOptions := allBranchesOption :: map branchOption branchesResp |},
       calls)
  | Rejected e =>
      (pg,
       (calls ++ [form_event (console_error "Error fetching supporting data:");
                  form_event (toast_error (messageOr e "Failed to fetch supporting data."))])%list)
  end.

(** ** Loading the expired students *)

(** The effect on [selectedBranchFilter]. *)
Definition fetchExpiredStudents (ans : Answer (list Student.t)) (pg : Page)
    : Page * list PageEvent :=
  let call :=
    form_event (api_getExpiredMemberships (optValue (selectedBranchFilter (form pg)))) in
  match ans with
  | Resolved studentsResp =>
      ({| form := setStudents studentsResp (form pg);
          loading := false;
          branchFilterOptions := branchFilterOptions pg |},
       [call])
  | Rejected e =>
      ({| form := form pg;
          loading := false;
          branchFilterOptions := branchFilterOptions pg |},
       [call;
        form_event (console_error "Error fetching expired memberships:");
        form_event (toast_error (messageOr e "Failed to fetch expired memberships."))])
  end.

(** ** Opening the dialog *)

(** [x || ''] on an optional string. *)
Definition orEmpty (o : option string) : string :=
  match o with
  | Some x => x
  | None => ""
  end.

(** [x ? x.toString() : '0'] on an optional amount. *)
Definition amountText (o : option float) : string :=
  match o with
  | Some x => if JS.truthyNum x then JS.numberToString x else "0"
  | None => "0"
  end.

(** The part of the student's details that the dialog reads later. *)
Definition studentOf (details : StudentDetails.t) : Student.t :=
  {| Student.id := StudentDetails.id details;
     Student.name := StudentDetails.name details;
     Student.assignments := StudentDetails.assignments details |}.

(** The options selected for the shifts the student holds: the fee is
    looked up in the catalog. *)
Definition currentShifts (catalog : list ShiftOption.t) (details : StudentDetails.t)
    : list ShiftOption.t :=
  match StudentDetails.assignments details with
  | Some l =>
      map (fun a =>
             {| ShiftOption.value := Assignment.shiftId a;
                ShiftOption.label := Assignment.shiftTitle a;
                ShiftOption.fee := shiftFee catalog (Assignment.shiftId a);
                ShiftOption.isDisabled := None |}) l
  | None => []
  end.

(** The state after the setters of [handleRenewClick]; [now] and [later]
    are [new Date()] and [addMonths(new Date(), 1)].  An absent branch
    name or locker number gives an empty label. *)
Definition prefill (details : StudentDetails.t) (now later : Date) (st : State) : State :=
  {| students := students st;
     renewDialogOpen := true;
     selectedStudent := Some (studentOf details);
     selectedBranchFilter := selectedBranchFilter st;
     nameInput := StudentDetails.name details;
     registrationNumberInput := orEmpty (StudentDetails.registrationNumber details);
     fatherNameInput := orEmpty (StudentDetails.fatherName details);
     aadharNumberInput := orEmpty (StudentDetails.aadharNumber details);
     addressInput := orEmpty (StudentDetails.address details);
     emailInput := StudentDetails.email details;
     phoneInput := StudentDetails.phone details;
     startDate := Some now;
     endDate := Some later;
     allShifts := allShifts st;
     shiftOptions := shiftOptions st;
     seatOptions := seatOptions st;
     branchOptions := branchOptions st;
     lockerOptions := lockerOptions st;
     selectedShifts := currentShifts (allShifts st) details;
     selectedSeat :=
       match StudentDetails.assignments details with
       | Some (currentAssignment :: _) =>
           Some {| SelectOption.value := Some (Assignment.seatId currentAssignment);
                   SelectOption.label := Assignment.seatNumber currentAssignment |}
       | _ => None
       end;
     selectedBranch :=
       if JS.truthyOptId (StudentDetails.branchId details)
       then Some {| SelectOption.value := StudentDetails.branchId details;
                    SelectOption.label := orEmpty (StudentDetails.branchName details) |}
       else None;
     selectedLocker :=
       if JS.truthyOptId (StudentDetails.lockerId details)
       then Some {| SelectOption.value := StudentDetails.lockerId details;
                    SelectOption.label := orEmpty (StudentDetails.lockerNumber details) |}
       else None;
     totalFee := amountText (StudentDetails.totalFee details);
     cash := amountText (StudentDetails.cash details);
     online := amountText (StudentDetails.online details);
     securityMoney := amountText (StudentDetails.securityMoney details);
     remark := orEmpty (StudentDetails.remark details);
     discount := amountText (StudentDetails.discount details);
     lockerFee := amountText (StudentDetails.lockerFee details);
     loadingSeats := loadingSeats st;
     loadingShifts := loadingShifts st;
     loadingLockers := loadingLockers st |}.

Definition handleRenewClick
    (studentId : Z) (ans : Answer StudentDetails.t) (now later : Date) (pg : Page)
    : Page * list PageEvent :=
  match ans with
  | Resolved fullStudentDetails =>
      ({| form := prefill fullStudentDetails now later (form pg);
          loading := false;
          branchFilterOptions := branchFilterOptions pg |},
       [api_getStudent studentId])
  | Rejected _ =>
      ({| form := form pg;
          loading := false;
          branchFilterOptions := branchFilterOptions pg |},
       [api_getStudent studentId;
        form_event (console_error "Failed to fetch student details for renewal:");
        form_event (toast_error "Failed to load student details for renewal.")])
  end.

(** The dialog once it is open and its effects have run: the branch
    effect, the shift effect and the fee effect all depend on what
    [handleRenewClick] has set; the fee effect runs again after the answer
    about the free shifts. *)
Definition openRenewDialog
    (details : StudentDetails.t) (now later : Date)
    (branchAns : Answer (list Seat.t * list Locker.t))
    (shiftAns : Answer (list Schedule.t)) (st : State) : State * list Event :=
  let st := prefill details now later st in
  let '(st, branchTrace) := branchEffect branchAns st in
  let st := feeEffect st in
  let '(st, shiftTrace) := shiftsEffect shiftAns st in
  (feeEffect st, (branchTrace ++ shiftTrace)%list).

(** ** Deleting a student *)

(** The click handler of the delete button; [confirmed] is the answer to
    [window.confirm]. *)
Definition handleDeleteClick
    (confirmed : bool) (ans : Answer unit) (student : Student.t) (st : State)
    : State * list PageEvent :=
  let ask :=
    window_confirm
      "Are you sure you want to delete this student? This action cannot be undone." in
  if confirmed then
    match ans with
    | Resolved _ =>
        (setStudents
           (List.filter (fun s => negb (Student.id s =? Student.id student)) (students st))
           st,
         [ask; api_deleteStudent (Student.id student);
          form_event (toast_success "Student deleted successfully.")])
    | Rejected err =>
        (st,
         [ask; api_deleteStudent (Student.id student);
          form_event (toast_error (messageOr err "Failed to delete student."))])
    end
  else (st, [ask]).

(** ** The WhatsApp link *)

(** [phone.replace(/\D/g, '')]: every byte that is not a decimal digit is
    removed. *)
Definition formattedPhone (phone : string) : string :=
  JS.unbytes (List.filter JS.isDigit (JS.bytes phone)).

Definition whatsappUrl (phone : string) : string :=
  "https://wa.me/" +:+ formattedPhone phone.

Definition handleWhatsAppClick (phone : string) : list PageEvent :=
  [window_open (whatsappUrl phone) "_blank"].

(** ** More sample data *)

Definition details7 : StudentDetails.t :=
  {| StudentDetails.id := 7;
     StudentDetails.name := "Asha";
     StudentDetails.registrationNumber := Some "R-7";
     StudentDetails.fatherName := None;
     StudentDetails.aadharNumber := None;
     StudentDetails.email := "asha@example.org";
     StudentDetails.phone := "+91 90000-00007";
     StudentDetails.address := Some "12 Lake Road";
     StudentDetails.branchId := Some 1;
     StudentDetails.branchName := Some "B1";
     StudentDetails.totalFee := Some 950%float;
     StudentDetails.lockerFee := Some 100%float;
     StudentDetails.cash := Some 200%float;
     StudentDetails.online := None;
     StudentDetails.securityMoney := None;
     StudentDetails.remark := None;
     StudentDetails.assignments := Student.assignments student7;
     StudentDetails.lockerId := Some 4;
     StudentDetails.lockerNumber := Some "L4";
     StudentDetails.discount := None |}.

Definition student9 : Student.t :=
  {| Student.id := 9; Student.name := "Ravi"; Student.assignments := None |}.

(** The page before any dialog was opened: the catalog is loaded. *)
Definition closedForm : State :=
  {| students := [student7; student9];
     renewDialogOpen := false;
     selectedStudent := None;
     selectedBranchFilter := None;
     nameInput := "";
     registrationNumberInput := "";
     fatherNameInput := "";
     aadharNumberInput := "";
     addressInput := "";
     emailInput := "";
     phoneInput := "";
     startDate := Some 1793577600000;
     endDate := Some 1796169600000;
     allShifts := [morning; evening; night];
     shiftOptions := [morning; evening; night];
     seatOptions := [];
     branchOptions := [branchB1; branchB2];
     lockerOptions := [];
     selectedShifts := [];
     selectedSeat := None;
     selectedBranch := None;
     selectedLocker := None;
     totalFee := "";
     cash := "";
     online := "";
     securityMoney := "";
     remark := "";
     discount := "";
     lockerFee := "";
     loadingSeats := false;
     loadingShifts := false;
     loadingLockers := false |}.

(** The lockers of branch B1: L4 is held by student 7, L5 is free, L6 is
    held by student 9, L7 is marked assigned without a holder, and L8 is
    not marked assigned although it names student 9. *)
Definition locker4 : Locker.t :=
  {| Locker.id := 4; Locker.lockerNumber := "L4"; Locker.isAssigned := true;
     Locker.studentId := Some 7 |}.
Definition locker5 : Locker.t :=
  {| Locker.id := 5; Locker.lockerNumber := "L5"; Locker.isAssigned := false;
     Locker.studentId := None |}.
Definition locker6 : Locker.t :=
  {| Locker.id := 6; Locker.lockerNumber := "L6"; Locker.isAssigned := true;
     Locker.studentId := Some 9 |}.
Definition locker7 : Locker.t :=
  {| Locker.id := 7; Locker.lockerNumber := "L7"; Locker.isAssigned := true;
     Locker.studentId := None |}.
Definition locker8 : Locker.t :=
  {| Locker.id := 8; Locker.lockerNumber := "L8"; Locker.isAssigned := false;
     Locker.studentId := Some 9 |}.
Definition lockersB1 : list Locker.t := [locker4; locker5; locker6; locker7; locker8].

(** * Properties *)

(** ** Membership in the set of available shift ids *)

Lemma has_true (ids : gset Z) (x : Z) : has ids x = true ↔ x ∈ ids.
Proof. unfold has. apply bool_decide_eq_true. Qed.

Lemma availableShiftIds_spec availableShifts student (x : Z) :
  x ∈ availableShiftIds availableShifts student
  ↔ In x (map Schedule.id availableShifts) ∨ In x (studentCurrentShiftIds student).
Proof.
  unfold availableShiftIds.
  rewrite elem_of_union, !elem_of_list_to_set, !list_elem_of_In.
  reflexivity.
Qed.

(** ** What the effects leave alone *)

(** The fee effect, by the number of selected shifts. *)
Ltac fee_cases st :=
  unfold feeEffect;
  destruct (selectedShifts st) as [|? [|? ?]] eqn:?;
  simpl; try assumption; try reflexivity.

Lemma feeEffect_selectedShifts st : selectedShifts (feeEffect st) = selectedShifts st.
Proof. fee_cases st. Qed.

Lemma feeEffect_allShifts st : allShifts (feeEffect st) = allShifts st.
Proof. fee_cases st. Qed.

(** Running the fee effect a second time changes nothing. *)
Lemma feeEffect_idempotent st : feeEffect (feeEffect st) = feeEffect st.
Proof.
  unfold feeEffect at 1. rewrite feeEffect_selectedShifts, feeEffect_allShifts.
  fee_cases st.
Qed.

Lemma branchEffect_selection ans st :
  selectedSeat (fst (branchEffect ans st)) = selectedSeat st
  ∧ selectedLocker (fst (branchEffect ans st)) = selectedLocker st
  ∧ selectedShifts (fst (branchEffect ans st)) = selectedShifts st
  ∧ selectedBranch (fst (branchEffect ans st)) = selectedBranch st.
Proof.
  unfold branchEffect, fetchBranchSpecificData.
  destruct (renewDialogOpen st); [|auto].
  destruct (optValue (selectedBranch st)) as [branchId|]; [|auto].
  destruct (selectedStudent st) as [student|]; [|auto].
  destruct (JS.truthyId branchId); [|auto].
  destruct ans as [[allSeats allLockerItems]|e]; auto.
Qed.

(** ** The shift effect, case by case *)

(** With the dialog open, a seat whose id is truthy and an answer, the
    options are rebuilt from the catalog and the selection is filtered. *)
Lemma shiftsEffect_resolved st seatId availableShifts :
  renewDialogOpen st = true →
  optValue (selectedSeat st) = Some seatId →
  seatId ≠ 0 →
  let ids := availableShiftIds availableShifts (selectedStudent st) in
  let st' := fst (shiftsEffect (Resolved availableShifts) st) in
  selectedShifts st'
  = List.filter (fun s => has ids (ShiftOption.value s)) (selectedShifts st)
  ∧ shiftOptions st' = map (annotated ids) (allShifts st)
  ∧ snd (shiftsEffect (Resolved availableShifts) st) = [api_getAvailableShifts seatId].
Proof.
  intros Hopen Hseat Hid. unfold shiftsEffect, fetchAvailableShiftsForSeat.
  rewrite Hopen, Hseat.
  assert (JS.truthyId seatId = true) as ->.
  { unfold JS.truthyId. apply negb_true_iff, Z.eqb_neq, Hid. }
  simpl. auto.
Qed.

(** Without a seat every shift of the catalog is selectable and the
    selection is left as it is; no request is made. *)
Lemma shiftsEffect_no_seat ans st :
  renewDialogOpen st = true →
  JS.truthyOptId (optValue (selectedSeat st)) = false →
  let st' := fst (shiftsEffect ans st) in
  selectedShifts st' = selectedShifts st
  ∧ shiftOptions st' = map enabled (allShifts st)
  ∧ snd (shiftsEffect ans st) = [].
Proof.
  intros Hopen Hseat. unfold shiftsEffect, fetchAvailableShiftsForSeat.
  rewrite Hopen.
  destruct (optValue (selectedSeat st)) as [seatId|]; simpl in *.
  - rewrite Hseat. simpl. auto.
  - auto.
Qed.

(** A seat selection is either one with a non-zero id or none at all. *)
Lemma seat_cases st :
  (∃ seatId, optValue (selectedSeat st) = Some seatId ∧ seatId ≠ 0)
  ∨ JS.truthyOptId (optValue (selectedSeat st)) = false.
Proof.
  destruct (optValue (selectedSeat st)) as [seatId|]; simpl; [|auto].
  unfold JS.truthyId. destruct (Z.eqb_spec seatId 0) as [->|Hne]; simpl; eauto.
Qed.

Lemma in_annotated ids l o :
  In o (map (annotated ids) l)
  → ShiftOption.isDisabled o = Some (negb (has ids (ShiftOption.value o))).
Proof. intros Ho. apply in_map_iff in Ho as (shift & <- & _). reflexivity. Qed.

Lemma in_enabled l o :
  In o (map enabled l) → ShiftOption.isDisabled o = Some false.
Proof. intros Ho. apply in_map_iff in Ho as (shift & <- & _). reflexivity. Qed.

Lemma eligible_true options shiftId :
  eligible options shiftId = true
  ↔ ∃ o, In o options ∧ ShiftOption.value o = shiftId
         ∧ ShiftOption.isDisabled o ≠ Some true.
Proof.
  unfold eligible. rewrite existsb_exists. split.
  - intros (o & Ho & Hb). apply andb_true_iff in Hb as [Hv Hd].
    exists o. rewrite Z.eqb_eq in Hv. rewrite negb_true_iff, bool_decide_eq_false in Hd. auto.
  - intros (o & Ho & Hv & Hd). exists o. split; [exact Ho|].
    apply andb_true_iff. rewrite Z.eqb_eq, negb_true_iff, bool_decide_eq_false. auto.
Qed.

(** A selection that is already empty stays empty. *)
Lemma shiftsEffect_selection_nil ans st :
  selectedShifts st = [] → selectedShifts (fst (shiftsEffect ans st)) = [].
Proof.
  intros Hnil. unfold shiftsEffect, fetchAvailableShiftsForSeat.
  destruct (renewDialogOpen st); [|exact Hnil].
  destruct (optValue (selectedSeat st)) as [seatId|]; [|exact Hnil].
  destruct (JS.truthyId seatId); [|exact Hnil].
  destruct ans as [availableShifts|e]; simpl; [|exact Hnil].
  rewrite Hnil. reflexivity.
Qed.

(** The filter of the shift effect keeps a chosen shift exactly when its
    id is in the set of available ids: on its own the recomputation of
    the eligibility drops the ineligible shifts and no other. *)
Lemma resolveShifts_keeps_eligible st seatId availableShifts s :
  renewDialogOpen st = true →
  optValue (selectedSeat st) = Some seatId →
  seatId ≠ 0 →
  In s (selectedShifts (fst (resolveShifts (Resolved availableShifts) st)))
  ↔ In s (selectedShifts st)
    ∧ ShiftOption.value s ∈ availableShiftIds availableShifts (selectedStudent st).
Proof.
  intros Hopen Hseat Hid. unfold resolveShifts.
  destruct (shiftsEffect_resolved st seatId availableShifts Hopen Hseat Hid) as (Hsel & _ & _).
  destruct (shiftsEffect (Resolved availableShifts) st) as [st' trace]. simpl in *.
  rewrite feeEffect_selectedShifts, Hsel, filter_In, has_true. reflexivity.
Qed.

(** ** Changing the branch *)

(** C1, counterexample: the dialog holds seat S0 and locker L4 of branch
    B1; after branch B2 is chosen and its seats and lockers have arrived,
    the seat and the locker are not both null. *)
Lemma setBranch_does_not_reset_example :
  ¬ (selectedSeat (fst (setBranch (Some branchB2) (Resolved (seatsB1, [])) dialog)) = None
     ∧ selectedLocker (fst (setBranch (Some branchB2) (Resolved (seatsB1, [])) dialog)) = None).
Proof. vm_compute. intros [Hseat _]. discriminate Hseat. Qed.

(** C1, as amended: choosing a branch replaces the branch selection and
    leaves the seat selection and the locker selection as they were,
    whatever the answer to the requests for the new branch's seats and
    lockers. *)
Theorem setBranch_keeps_seat_and_locker option ans st :
  selectedBranch (fst (setBranch option ans st)) = option
  ∧ selectedSeat (fst (setBranch option ans st)) = selectedSeat st
  ∧ selectedLocker (fst (setBranch option ans st)) = selectedLocker st.
Proof.
  unfold setBranch.
  destruct (branchEffect_selection ans (setSelectedBranch option st))
    as (Hseat & Hlocker & _ & Hbranch).
  rewrite Hseat, Hlocker, Hbranch. auto.
Qed.

(** ** Changing the seat *)

Lemma setSeat_selectedShifts option ans st :
  selectedShifts (fst (setSeat option ans st)) = [].
Proof.
  unfold setSeat.
  pose proof (shiftsEffect_selection_nil ans (feeEffect (handleSeatChange option st))) as Hnil.
  rewrite feeEffect_selectedShifts in Hnil. specialize (Hnil eq_refl).
  destruct (shiftsEffect ans (feeEffect (handleSeatChange option st))) as [st' trace].
  simpl in *. rewrite feeEffect_selectedShifts. exact Hnil.
Qed.

(** C2, counterexample: the morning shift is chosen; seat S1 is picked and
    reports the morning shift free, so the new options mark it selectable,
    yet it is no longer in the chosen set: it is not true that every
    chosen shift that the new options mark selectable remains chosen. *)
Lemma setSeat_drops_eligible_shift_example :
  ¬ (∀ s,
       In s (selectedShifts dialogMorning) →
       eligible (shiftOptions (fst (setSeat (Some seatS1) (Resolved freeOnS1) dialogMorning)))
                (ShiftOption.value s) = true →
       In s (selectedShifts (fst (setSeat (Some seatS1) (Resolved freeOnS1) dialogMorning)))).
Proof.
  intros Hkept. specialize (Hkept morning).
  rewrite setSeat_selectedShifts in Hkept. apply Hkept.
  - vm_compute. auto.
  - vm_compute. reflexivity.
Qed.

(** C2, as amended: picking a seat empties the chosen shift set, for every
    state, every seat option and every answer about the free shifts; the
    shifts that are still eligible for the new seat are removed with the
    others. *)
Theorem setSeat_empties_selection option ans st :
  selectedShifts (fst (setSeat option ans st)) = [].
Proof. apply setSeat_selectedShifts. Qed.

(** C7: once the seat transition is complete, every chosen shift is one the
    current shift options mark selectable, for every seat option and every
    answer (an answer, a failed request, or no request at all). *)
Theorem setSeat_selection_is_eligible option ans st :
  Forall (fun s =>
            eligible (shiftOptions (fst (setSeat option ans st))) (ShiftOption.value s) = true)
         (selectedShifts (fst (setSeat option ans st))).
Proof. rewrite setSeat_selectedShifts. constructor. Qed.

(** ** Seats offered for a branch *)

Lemma seatAvailable_spec subject seat :
  seatAvailable subject seat = true
  ↔ Seat.studentId seat = None
    ∨ Seat.studentId seat = Some 0
    ∨ Seat.studentId seat = Some subject.
Proof.
  unfold seatAvailable. rewrite orb_true_iff, negb_true_iff, bool_decide_eq_true.
  destruct (Seat.studentId seat) as [occupant|]; simpl.
  - unfold JS.truthyId. rewrite negb_false_iff, Z.eqb_eq.
    split.
    + intros [->|H]; auto.
    + intros [H|[H|H]]; [discriminate H| |]; auto. left. congruence.
  - split; auto.
Qed.

(** With the dialog open, a branch whose id is truthy and a student, the
    answer replaces both option lists. *)
Lemma branchEffect_resolved st branchId student allSeats allLockerItems :
  renewDialogOpen st = true →
  optValue (selectedBranch st) = Some branchId →
  branchId ≠ 0 →
  selectedStudent st = Some student →
  let st' := fst (branchEffect (Resolved (allSeats, allLockerItems)) st) in
  seatOptions st'
  = noneOption :: map seatOption (List.filter (seatAvailable (Student.id student)) allSeats)
  ∧ lockerOptions st'
    = noneOption
      :: map lockerOption (List.filter (lockerAvailable (Student.id student)) allLockerItems)
  ∧ snd (branchEffect (Resolved (allSeats, allLockerItems)) st)
    = [api_getSeats branchId; api_getLockers branchId].
Proof.
  intros Hopen Hbranch Hid Hstudent. unfold branchEffect, fetchBranchSpecificData.
  rewrite Hopen, Hbranch, Hstudent.
  assert (JS.truthyId branchId = true) as ->.
  { unfold JS.truthyId. apply negb_true_iff, Z.eqb_neq, Hid. }
  simpl. auto.
Qed.

(** C4, counterexample: seat S4 of branch B1 carries the occupant id 0,
    which is neither absent nor the id of student 7, and it is offered all
    the same. *)
Lemma seat_of_occupant_zero_is_offered_example :
  ¬ (In (seatOption seat4)
        (seatOptions (fst (branchEffect (Resolved (seatsB1, [])) dialog)))
     ↔ Seat.studentId seat4 = None
       ∨ Seat.studentId seat4 = Some (Student.id student7)).
Proof.
  intros [Hoffered _].
  assert (In (seatOption seat4)
             (seatOptions (fst (branchEffect (Resolved (seatsB1, [])) dialog)))) as Hin.
  { vm_compute. auto. }
  destruct (Hoffered Hin) as [H|H]; discriminate H.
Qed.

(** C4, as amended: the seat options are the "None" entry followed by the
    fetched seats, in order, whose occupant id is absent, null or 0, or is
    the id of the student being renewed; a seat held under another,
    non-zero id is left out. *)
Theorem offered_seats_are_free_or_own st branchId student allSeats allLockerItems :
  renewDialogOpen st = true →
  optValue (selectedBranch st) = Some branchId →
  branchId ≠ 0 →
  selectedStudent st = Some student →
  ∃ availableSeats,
    seatOptions (fst (branchEffect (Resolved (allSeats, allLockerItems)) st))
    = noneOption :: map seatOption availableSeats
    ∧ (∀ seat,
         In seat availableSeats
         ↔ In seat allSeats
           ∧ (Seat.studentId seat = None
              ∨ Seat.studentId seat = Some 0
              ∨ Seat.studentId seat = Some (Student.id student)))
    ∧ (∀ seat occupant,
         Seat.studentId seat = Some occupant →
         occupant ≠ 0 → occupant ≠ Student.id student →
         ¬ In seat availableSeats).
Proof.
  intros Hopen Hbranch Hid Hstudent.
  exists (List.filter (seatAvailable (Student.id student)) allSeats).
  destruct (branchEffect_resolved st branchId student allSeats allLockerItems
              Hopen Hbranch Hid Hstudent) as (Hseats & _ & _).
  split; [exact Hseats|]. split.
  - intros seat. rewrite filter_In, seatAvailable_spec. reflexivity.
  - intros seat occupant Hocc Hnz Hother Hin.
    apply filter_In in Hin as [_ Hav]. apply seatAvailable_spec in Hav.
    rewrite Hocc in Hav. destruct Hav as [H|[H|H]]; congruence.
Qed.

(** The scenario of branch B1: student 7 is offered "None", the free seat
    S1, the own seat S2 and seat S4, and not seat S3 of student 9. *)
Lemma offered_seats_are_free_or_own_witness :
  ∃ availableSeats,
    seatOptions (fst (branchEffect (Resolved (seatsB1, [])) dialog))
    = noneOption :: map seatOption availableSeats
    ∧ (∀ seat,
         In seat availableSeats
         ↔ In seat seatsB1
           ∧ (Seat.studentId seat = None
              ∨ Seat.studentId seat = Some 0
              ∨ Seat.studentId seat = Some (Student.id student7)))
    ∧ (∀ seat occupant,
         Seat.studentId seat = Some occupant →
         occupant ≠ 0 → occupant ≠ Student.id student7 →
         ¬ In seat availableSeats).
Proof.
  apply (offered_seats_are_free_or_own dialog 1 student7 seatsB1 []).
  - reflexivity.
  - reflexivity.
  - lia.
  - reflexivity.
Defined.

Example offered_seats_of_B1 :
  seatOptions (fst (branchEffect (Resolved (seatsB1, [])) dialog))
  = [noneOption; seatOption seat1; seatOption seat2; seatOption seat4].
Proof. vm_compute. reflexivity. Qed.

(** ** Shifts the student already holds *)

(** C3: when the shift effect has applied an answer, no option whose id is
    among the student's current assignments is disabled, every shift of the
    catalog with such an id is selectable, and a chosen shift with such an
    id stays chosen; for a seat with a truthy id an option is enabled
    exactly when its id was reported free or is among the assignments. *)
Theorem assigned_shifts_stay_eligible st availableShifts :
  renewDialogOpen st = true →
  (∀ o, In o (shiftOptions (fst (shiftsEffect (Resolved availableShifts) st))) →
        In (ShiftOption.value o) (studentCurrentShiftIds (selectedStudent st)) →
        ShiftOption.isDisabled o = Some false)
  ∧ (∀ shift, In shift (allShifts st) →
        In (ShiftOption.value shift) (studentCurrentShiftIds (selectedStudent st)) →
        eligible (shiftOptions (fst (shiftsEffect (Resolved availableShifts) st)))
                 (ShiftOption.value shift) = true)
  ∧ (∀ s, In s (selectedShifts st) →
        In (ShiftOption.value s) (studentCurrentShiftIds (selectedStudent st)) →
        In s (selectedShifts (fst (shiftsEffect (Resolved availableShifts) st))))
  ∧ (JS.truthyOptId (optValue (selectedSeat st)) = true →
     ∀ o, In o (shiftOptions (fst (shiftsEffect (Resolved availableShifts) st))) →
          (ShiftOption.isDisabled o = Some false
           ↔ In (ShiftOption.value o) (map Schedule.id availableShifts)
             ∨ In (ShiftOption.value o) (studentCurrentShiftIds (selectedStudent st)))).
Proof.
  intros Hopen.
  set (ids := availableShiftIds availableShifts (selectedStudent st)).
  assert (∀ x, In x (studentCurrentShiftIds (selectedStudent st)) → has ids x = true) as Hown.
  { intros x Hx. apply has_true, availableShiftIds_spec. auto. }
  destruct (seat_cases st) as [(seatId & Hseat & Hid)|Hnone].
  - destruct (shiftsEffect_resolved st seatId availableShifts Hopen Hseat Hid)
      as (Hsel & Hopts & _). fold ids in Hsel, Hopts.
    rewrite Hsel, Hopts. split; [|split; [|split]].
    + intros o Ho Hx. rewrite (in_annotated ids _ o Ho), (Hown _ Hx). reflexivity.
    + intros shift Hshift Hx. apply eligible_true.
      exists (annotated ids shift). split; [apply in_map, Hshift|].
      split; [reflexivity|]. simpl. rewrite (Hown _ Hx). discriminate.
    + intros s Hs Hx. apply filter_In. auto.
    + intros _ o Ho. rewrite (in_annotated ids _ o Ho).
      rewrite <- availableShiftIds_spec, <- has_true. fold ids.
      destruct (has ids (ShiftOption.value o)); simpl; split; congruence.
  - destruct (shiftsEffect_no_seat (Resolved availableShifts) st Hopen Hnone)
      as (Hsel & Hopts & _).
    rewrite Hsel, Hopts. split; [|split; [|split]].
    + intros o Ho _. apply (in_enabled _ _ Ho).
    + intros shift Hshift _. apply eligible_true.
      exists (enabled shift). split; [apply in_map, Hshift|].
      split; [reflexivity|]. simpl. discriminate.
    + auto.
    + intros Hseat. rewrite Hnone in Hseat. discriminate Hseat.
Qed.

(** The scenario of seat S1: it reports shifts 1 and 3 free, student 7
    holds shift 2 on another seat, and all three shifts are selectable. *)
Lemma assigned_shifts_stay_eligible_witness :
  eligible (shiftOptions (fst (shiftsEffect (Resolved freeOnS1) (setSelectedSeat (Some seatS1) dialog))))
           (ShiftOption.value evening) = true.
Proof.
  apply (assigned_shifts_stay_eligible (setSelectedSeat (Some seatS1) dialog) freeOnS1).
  - reflexivity.
  - simpl. auto.
  - simpl. auto.
Defined.

Example eligible_shifts_on_S1 :
  map (fun o => (ShiftOption.value o, ShiftOption.label o, ShiftOption.isDisabled o))
      (shiftOptions (fst (shiftsEffect (Resolved freeOnS1) (setSelectedSeat (Some seatS1) dialog))))
  = [(1, "Morning (Available)", Some false);
     (2, "Evening (Available)", Some false);
     (3, "Night (Available)", Some false)].
Proof. vm_compute. reflexivity. Qed.

(** A shift that is neither free on the seat nor held by the student is
    disabled. *)
Example taken_shift_on_S1 :
  map (fun o => (ShiftOption.value o, ShiftOption.label o, ShiftOption.isDisabled o))
      (shiftOptions (fst (shiftsEffect (Resolved [])
                            (setSelectedSeat (Some seatS1) dialog))))
  = [(1, "Morning (Assigned)", Some true);
     (2, "Evening (Available)", Some false);
     (3, "Night (Assigned)", Some true)].
Proof. vm_compute. reflexivity. Qed.

(** ** The membership fee *)

Lemma find_none_intro {A : Type} (f : A → bool) (l : list A) :
  (∀ x, In x l → f x = false) → List.find f l = None.
Proof.
  induction l as [|a l IH]; simpl; intros Hall; [reflexivity|].
  rewrite (Hall a (or_introl eq_refl)). apply IH. intros x Hx. apply Hall. auto.
Qed.

Lemma numberToString_zero : JS.numberToString 0 = "0".
Proof. vm_compute. reflexivity. Qed.

Lemma feeEffect_single st s :
  selectedShifts st = [s] →
  totalFee (feeEffect st)
  = JS.numberToString (shiftFee (allShifts st) (ShiftOption.value s)).
Proof. intros Hsel. unfold feeEffect. rewrite Hsel. reflexivity. Qed.

Lemma feeEffect_not_single st :
  length (selectedShifts st) ≠ 1%nat → totalFee (feeEffect st) = "0".
Proof.
  intros Hlen. unfold feeEffect.
  destruct (selectedShifts st) as [|s [|s' l]]; simpl in *; congruence.
Qed.

Lemma isFeeReadOnly_true st :
  isFeeReadOnly st = true ↔ length (selectedShifts st) = 1%nat.
Proof. unfold isFeeReadOnly. apply Nat.eqb_eq. Qed.

(** The fee found for an id the catalog lists is the fee of one of its
    entries with that id. *)
Lemma shiftFee_listed catalog shiftId :
  (∃ shift, In shift catalog ∧ ShiftOption.value shift = shiftId) →
  ∃ shift, In shift catalog ∧ ShiftOption.value shift = shiftId
           ∧ shiftFee catalog shiftId = ShiftOption.fee shift.
Proof.
  intros (shift & Hin & Hid). unfold shiftFee.
  destruct (List.find (fun x => ShiftOption.value x =? shiftId) catalog) as [d|] eqn:Hfind.
  - apply find_some in Hfind as [Hd Hv]. apply Z.eqb_eq in Hv. eauto.
  - apply (find_none _ _ Hfind) in Hin. apply Z.eqb_neq in Hin. contradiction.
Qed.

(** C5: the fee recomputation writes into [totalFee] the fee that the
    catalog gives for the selected shift when exactly one shift is chosen,
    which is the fee the chosen option holds whenever the option agrees
    with the catalog, and "0" when no shift or several are chosen; the fee
    field is read-only exactly when one shift is chosen. *)
Theorem fee_follows_single_shift st :
  (isFeeReadOnly (feeEffect st) = true ↔ length (selectedShifts st) = 1%nat)
  ∧ (∀ s, selectedShifts st = [s] →
          totalFee (feeEffect st)
          = JS.numberToString (shiftFee (allShifts st) (ShiftOption.value s))
          ∧ isFeeReadOnly (feeEffect st) = true)
  ∧ (∀ s shift,
        selectedShifts st = [s] →
        List.find (fun x => ShiftOption.value x =? ShiftOption.value s) (allShifts st)
        = Some shift →
        totalFee (feeEffect st) = JS.numberToString (ShiftOption.fee shift))
  ∧ (∀ s,
        selectedShifts st = [s] →
        (∃ shift, In shift (allShifts st) ∧ ShiftOption.value shift = ShiftOption.value s) →
        (∀ shift, In shift (allShifts st) →
                  ShiftOption.value shift = ShiftOption.value s →
                  ShiftOption.fee shift = ShiftOption.fee s) →
        totalFee (feeEffect st) = JS.numberToString (ShiftOption.fee s))
  ∧ (length (selectedShifts st) ≠ 1%nat →
     totalFee (feeEffect st) = "0" ∧ isFeeReadOnly (feeEffect st) = false).
Proof.
  split; [|split; [|split; [|split]]].
  - rewrite isFeeReadOnly_true, feeEffect_selectedShifts. reflexivity.
  - intros s Hsel. split; [apply feeEffect_single, Hsel|].
    apply isFeeReadOnly_true. rewrite feeEffect_selectedShifts, Hsel. reflexivity.
  - intros s shift Hsel Hfind. rewrite (feeEffect_single st s Hsel).
    unfold shiftFee. rewrite Hfind. reflexivity.
  - intros s Hsel Hlisted Hagree. rewrite (feeEffect_single st s Hsel).
    destruct (shiftFee_listed _ _ Hlisted) as (shift & Hin & Hid & ->).
    rewrite (Hagree shift Hin Hid). reflexivity.
  - intros Hlen. split; [apply feeEffect_not_single, Hlen|].
    apply not_true_is_false. rewrite isFeeReadOnly_true, feeEffect_selectedShifts. exact Hlen.
Qed.

(** The morning shift alone: the fee is that of the chosen option, which
    the catalog lists. *)
Lemma fee_follows_single_shift_witness :
  totalFee (feeEffect dialogMorning) = JS.numberToString (ShiftOption.fee morning).
Proof.
  apply (proj1 (proj2 (proj2 (proj2 (fee_follows_single_shift dialogMorning)))) morning).
  - reflexivity.
  - exists morning. simpl. auto.
  - simpl. intros shift [<-|[<-|[<-|[]]]]; simpl; intros Hid; lia || reflexivity.
Defined.

(** One shift of fee 300 gives "300" and a read-only field; with no shift
    left the fee is "0" and the field can be edited. *)
Example fee_of_single_shift :
  totalFee (setShifts (Some [morning]) dialog) = "300"
  ∧ isFeeReadOnly (setShifts (Some [morning]) dialog) = true
  ∧ totalFee (setShifts None (setShifts (Some [morning]) dialog)) = "0"
  ∧ isFeeReadOnly (setShifts None (setShifts (Some [morning]) dialog)) = false
  ∧ totalFee (setShifts (Some [morning; night]) dialog) = "0"
  ∧ isFeeReadOnly (setShifts (Some [morning; night]) dialog) = false.
Proof. vm_compute. repeat split. Qed.

(** C10: when the one chosen shift has an id that no entry of the catalog
    carries, the fee recomputation writes "0", whatever fee the chosen
    option itself holds. *)
Theorem fee_of_shift_outside_catalog st s :
  selectedShifts st = [s] →
  (∀ shift, In shift (allShifts st) → ShiftOption.value shift ≠ ShiftOption.value s) →
  totalFee (feeEffect st) = "0".
Proof.
  intros Hsel Hnone. rewrite (feeEffect_single st s Hsel). unfold shiftFee.
  rewrite find_none_intro.
  - apply numberToString_zero.
  - intros shift Hshift. apply Z.eqb_neq, Hnone, Hshift.
Qed.

(** The weekend option holds the fee 300 and the id 5, which the catalog
    does not list. *)
Lemma fee_of_shift_outside_catalog_witness :
  ShiftOption.fee weekend = 300%float
  ∧ totalFee (feeEffect (handleShiftChange (Some [weekend]) dialog)) = "0".
Proof.
  split; [reflexivity|].
  apply (fee_of_shift_outside_catalog (handleShiftChange (Some [weekend]) dialog) weekend).
  - reflexivity.
  - simpl. intros shift [<-|[<-|[<-|[]]]]; simpl; lia.
Defined.

(** ** Amounts paid and due *)

(** C6: the amount paid is the sum of the cash and online inputs and the
    amount due is the fee less the discount less the amount paid, each
    input being read with [parseFloat] and replaced by 0 when it does not
    parse; nothing bounds the result from below, and a negative amount due
    is shown as such. *)
Theorem paid_and_due_are_derived st :
  paid st
  = (JS.orNum (JS.parseFloat (cash st)) 0 + JS.orNum (JS.parseFloat (online st)) 0)%float
  ∧ due st
    = (JS.orNum (JS.parseFloat (totalFee st)) 0
       - JS.orNum (JS.parseFloat (discount st)) 0
       - paid st)%float
  ∧ (∀ input, is_nan (JS.parseFloat input) = true → JS.orNum (JS.parseFloat input) 0 = 0%float)
  ∧ JS.orNum (JS.parseFloat "") 0 = 0%float
  ∧ due (setTotalFee "100" dialog) = (-250)%float
  ∧ dueField (setTotalFee "100" dialog) = "-250.00".
Proof.
  split; [reflexivity|]. split; [reflexivity|]. split; [|split; [|split]].
  - intros input Hnan. unfold JS.orNum, JS.truthyNum. rewrite Hnan. reflexivity.
  - vm_compute. reflexivity.
  - vm_compute. reflexivity.
  - vm_compute. reflexivity.
Qed.

(** Fee 500, discount 50, cash 200 and online 100: 300 paid, 150 due. *)
Example paid_and_due_of_dialog :
  paid dialog = 300%float ∧ due dialog = 150%float
  ∧ paidField dialog = "300.00" ∧ dueField dialog = "150.00".
Proof. vm_compute. repeat split. Qed.

(** An input that does not parse counts as 0. *)
Example due_with_unparseable_discount :
  due (setDiscount "n/a" dialog) = 200%float ∧ due (setDiscount "" dialog) = 200%float.
Proof. vm_compute. split; reflexivity. Qed.

(** ** Submitting the renewal *)

(** Any one of the required entries missing makes the guard fire. *)
Lemma requiredMissing_intro st :
  selectedShifts st = []
  ∨ JS.trim (nameInput st) = ""
  ∨ JS.trim (phoneInput st) = ""
  ∨ JS.trim (addressInput st) = ""
  ∨ totalFee st = ""
  ∨ JS.truthyOptId (optValue (selectedBranch st)) = false →
  requiredMissing st = true.
Proof.
  unfold requiredMissing.
  intros [H|[H|[H|[H|[H|H]]]]]; rewrite H; simpl; rewrite ?orb_true_r; reflexivity.
Qed.

(** What holds of a state that passes the guard. *)
Lemma requiredMissing_false st :
  requiredMissing st = false →
  ∃ student sd ed branchId,
    selectedStudent st = Some student
    ∧ startDate st = Some sd
    ∧ endDate st = Some ed
    ∧ optValue (selectedBranch st) = Some branchId
    ∧ branchId ≠ 0
    ∧ selectedShifts st ≠ [].
Proof.
  unfold requiredMissing. intros H.
  repeat (apply orb_false_iff in H as [H ?]).
  destruct (selectedStudent st) as [student|]; [|discriminate].
  destruct (startDate st) as [sd|]; [|discriminate].
  destruct (endDate st) as [ed|]; [|discriminate].
  destruct (optValue (selectedBranch st)) as [branchId|]; [|discriminate].
  exists student, sd, ed, branchId. repeat split; auto.
  - intros ->. discriminate.
  - destruct (selectedShifts st); [discriminate|congruence].
Qed.

Lemma handleRenewSubmit_missing renewAns listAns st :
  requiredMissing st = true →
  handleRenewSubmit renewAns listAns st = (st, [toast_error validationMessage]).
Proof.
  intros Hmissing. unfold handleRenewSubmit.
  destruct (selectedStudent st), (startDate st), (endDate st),
    (optValue (selectedBranch st)); try reflexivity.
  rewrite Hmissing. reflexivity.
Qed.

(** A state that passes the guard sends the renewal request first. *)
Lemma handleRenewSubmit_sends renewAns listAns st :
  requiredMissing st = false →
  ∃ student sd ed branchId rest,
    selectedStudent st = Some student
    ∧ startDate st = Some sd
    ∧ endDate st = Some ed
    ∧ optValue (selectedBranch st) = Some branchId
    ∧ snd (handleRenewSubmit renewAns listAns st)
      = api_renewStudent (Student.id student) (renewPayload sd ed branchId st) :: rest.
Proof.
  intros Hpass.
  destruct (requiredMissing_false st Hpass)
    as (student & sd & ed & branchId & Hstudent & Hsd & Hed & Hbranch & _ & _).
  unfold handleRenewSubmit. rewrite Hstudent, Hsd, Hed, Hbranch, Hpass.
  destruct renewAns as [[]|err]; [destruct listAns as [resp|err]|];
    simpl; eauto 10.
Qed.

(** C8: with no shift chosen, or with the name, the phone, the address,
    the fee or the branch missing, submitting reports the validation
    message and does nothing else: the state is unchanged and no request
    is sent, whatever the remote answers would have been. *)
Theorem submit_stops_on_missing_field renewAns listAns st :
  selectedShifts st = []
  ∨ JS.trim (nameInput st) = ""
  ∨ JS.trim (phoneInput st) = ""
  ∨ JS.trim (addressInput st) = ""
  ∨ totalFee st = ""
  ∨ JS.truthyOptId (optValue (selectedBranch st)) = false →
  handleRenewSubmit renewAns listAns st = (st, [toast_error validationMessage])
  ∧ (∀ id payload,
       ¬ In (api_renewStudent id payload) (snd (handleRenewSubmit renewAns listAns st))).
Proof.
  intros Hmissing. apply requiredMissing_intro in Hmissing.
  rewrite (handleRenewSubmit_missing renewAns listAns st Hmissing).
  split; [reflexivity|].
  intros id payload [H|[]]. discriminate H.
Qed.

(** The dialog with every shift removed. *)
Lemma submit_stops_on_missing_field_witness :
  handleRenewSubmit (Resolved tt) (Resolved []) (setShifts None dialog)
  = (setShifts None dialog, [toast_error validationMessage]).
Proof.
  apply (submit_stops_on_missing_field (Resolved tt) (Resolved []) (setShifts None dialog)).
  left. reflexivity.
Defined.

(** A name made of blanks only, and an empty fee, stop the submission as
    well; a complete form is sent. *)
Example submit_of_dialog :
  snd (handleRenewSubmit (Resolved tt) (Resolved []) dialog)
  = [api_renewStudent 7 (renewPayload 1793577600000 1796169600000 1 dialog);
     toast_success "Membership renewed for Asha";
     api_getExpiredMemberships None]
  ∧ snd (handleRenewSubmit (Resolved tt) (Resolved []) (setTotalFee "" dialog))
    = [toast_error validationMessage].
Proof. split; reflexivity. Qed.

(** C9: when the discount input parses to 0 or does not parse, the renewal
    request is sent with no discount field, while cash, online, security
    money and locker fee inputs of that kind are sent as the number 0; the
    request is the same as for any other discount input of that kind, the
    empty one included. *)
Theorem falsy_discount_is_left_out renewAns listAns st :
  requiredMissing st = false →
  JS.truthyNum (JS.parseFloat (discount st)) = false →
  (∃ id payload rest,
     snd (handleRenewSubmit renewAns listAns st) = api_renewStudent id payload :: rest
     ∧ RenewPayload.discount payload = None
     ∧ (JS.truthyNum (JS.parseFloat (cash st)) = false →
        RenewPayload.cash payload = 0%float)
     ∧ (JS.truthyNum (JS.parseFloat (online st)) = false →
        RenewPayload.online payload = 0%float)
     ∧ (JS.truthyNum (JS.parseFloat (securityMoney st)) = false →
        RenewPayload.securityMoney payload = 0%float)
     ∧ (JS.truthyNum (JS.parseFloat (lockerFee st)) = false →
        RenewPayload.lockerFee payload = 0%float))
  ∧ (∀ other,
       JS.truthyNum (JS.parseFloat other) = false →
       snd (handleRenewSubmit renewAns listAns (setDiscount other st))
       = snd (handleRenewSubmit renewAns listAns st)).
Proof.
  intros Hpass Hdiscount. split.
  - destruct (handleRenewSubmit_sends renewAns listAns st Hpass)
      as (student & sd & ed & branchId & rest & _ & _ & _ & _ & Hsent).
    exists (Student.id student), (renewPayload sd ed branchId st), rest.
    split; [exact Hsent|]. unfold renewPayload; simpl.
    rewrite Hdiscount. unfold JS.orNum.
    repeat split; intros ->; reflexivity.
  - intros other Hother.
    destruct (requiredMissing_false st Hpass)
      as (student & sd & ed & branchId & Hstudent & Hsd & Hed & Hbranch & _ & _).
    assert (renewPayload sd ed branchId (setDiscount other st)
            = renewPayload sd ed branchId st) as Hsame.
    { unfold renewPayload; simpl. rewrite Hdiscount, Hother. reflexivity. }
    unfold handleRenewSubmit.
    change (requiredMissing (setDiscount other st)) with (requiredMissing st).
    change (selectedStudent (setDiscount other st)) with (selectedStudent st).
    change (startDate (setDiscount other st)) with (startDate st).
    change (endDate (setDiscount other st)) with (endDate st).
    change (selectedBranch (setDiscount other st)) with (selectedBranch st).
    rewrite Hstudent, Hsd, Hed, Hbranch, Hpass, Hsame.
    destruct renewAns as [[]|err]; [destruct listAns as [resp|err]|]; reflexivity.
Qed.

(** The dialog with the discount "0": the request is the one sent for an
    empty discount. *)
Lemma falsy_discount_is_left_out_witness :
  snd (handleRenewSubmit (Resolved tt) (Resolved []) (setDiscount "" (setDiscount "0" dialog)))
  = snd (handleRenewSubmit (Resolved tt) (Resolved []) (setDiscount "0" dialog)).
Proof.
  apply (falsy_discount_is_left_out (Resolved tt) (Resolved []) (setDiscount "0" dialog)).
  - vm_compute. reflexivity.
  - vm_compute. reflexivity.
  - vm_compute. reflexivity.
Defined.

(** The discount "0" is left out, the security money "0" is sent as 0, and
    a discount of 50 is sent as it is. *)
Example payload_of_dialog :
  RenewPayload.discount (renewPayload 0 0 1 (setDiscount "0" dialog)) = None
  ∧ RenewPayload.securityMoney (renewPayload 0 0 1 (setDiscount "0" dialog)) = 0%float
  ∧ RenewPayload.lockerFee (renewPayload 0 0 1 (setDiscount "0" dialog)) = 0%float
  ∧ RenewPayload.discount (renewPayload 0 0 1 dialog) = Some 50%float
  ∧ RenewPayload.cash (renewPayload 0 0 1 dialog) = 200%float.
Proof. vm_compute. repeat split. Qed.

(** * Properties of the rest of the code *)

(** ** The branch effect *)

Lemma truthyId_true (z : Z) : z ≠ 0 → JS.truthyId z = true.
Proof. intros Hz. unfold JS.truthyId. apply negb_true_iff, Z.eqb_neq, Hz. Qed.

(** X1: when the requests for the seats and lockers of the branch fail,
    both option lists stay as they were, both loading flags are down again
    and the failure is reported. *)
Theorem branch_fetch_failure_keeps_options st branchId student e :
  renewDialogOpen st = true →
  optValue (selectedBranch st) = Some branchId →
  branchId ≠ 0 →
  selectedStudent st = Some student →
  seatOptions (fst (branchEffect (Rejected e) st)) = seatOptions st
  ∧ lockerOptions (fst (branchEffect (Rejected e) st)) = lockerOptions st
  ∧ loadingSeats (fst (branchEffect (Rejected e) st)) = false
  ∧ loadingLockers (fst (branchEffect (Rejected e) st)) = false
  ∧ snd (branchEffect (Rejected e) st)
    = [api_getSeats branchId; api_getLockers branchId;
       console_error "Error fetching seats and lockers for branch:";
       toast_error "Failed to fetch seats and lockers"].
Proof.
  intros Hopen Hbranch Hid Hstudent. unfold branchEffect, fetchBranchSpecificData.
  rewrite Hopen, Hbranch, Hstudent, (truthyId_true _ Hid). simpl. auto 6.
Qed.

Lemma branch_fetch_failure_keeps_options_witness :
  seatOptions (fst (branchEffect (Rejected {| ApiError.message := None;
                                              ApiError.responseMessage := None |}) dialog))
  = [noneOption; seatS0; seatS1].
Proof.
  apply (branch_fetch_failure_keeps_options dialog 1 student7).
  - reflexivity.
  - reflexivity.
  - lia.
  - reflexivity.
Defined.

(** X2: with the dialog open and no branch chosen (none, or one whose id is
    0), or no student, the seat and the locker select offer the "None"
    entry alone and no request is sent, whatever the lists held before. *)
Theorem no_branch_offers_none_only ans st :
  renewDialogOpen st = true →
  JS.truthyOptId (optValue (selectedBranch st)) = false ∨ selectedStudent st = None →
  seatOptions (fst (branchEffect ans st)) = [noneOption]
  ∧ lockerOptions (fst (branchEffect ans st)) = [noneOption]
  ∧ snd (branchEffect ans st) = [].
Proof.
  intros Hopen Hnone. unfold branchEffect, fetchBranchSpecificData. rewrite Hopen.
  destruct (optValue (selectedBranch st)) as [branchId|]; [|auto].
  destruct (selectedStudent st) as [student|].
  - destruct Hnone as [Hfalsy|Hstudent]; [|discriminate Hstudent].
    simpl in Hfalsy. rewrite Hfalsy. auto.
  - auto.
Qed.

Lemma no_branch_offers_none_only_witness :
  seatOptions (fst (setBranch None (Resolved (seatsB1, lockersB1)) dialog)) = [noneOption].
Proof.
  apply (no_branch_offers_none_only (Resolved (seatsB1, lockersB1))
           (setSelectedBranch None dialog)).
  - reflexivity.
  - left. reflexivity.
Defined.




(** Student 7 is offered the own locker L4, the free locker L5 and locker
    L8, which is not marked assigned; not L6 and not L7. *)
Example offered_lockers_of_B1 :
  lockerOptions (fst (branchEffect (Resolved (seatsB1, lockersB1)) dialog))
  = [noneOption; lockerOption locker4; lockerOption locker5; lockerOption locker8].
Proof. vm_compute. reflexivity. Qed.

(** X4: the "None" entry stays at the head of both option lists: whatever
    the state, the answer and the outcome of the requests, a branch effect
    that finds it there leaves it there. *)
Theorem none_option_stays_first ans st :
  head (seatOptions st) = Some noneOption →
  head (lockerOptions st) = Some noneOption →
  head (seatOptions (fst (branchEffect ans st))) = Some noneOption
  ∧ head (lockerOptions (fst (branchEffect ans st))) = Some noneOption.
Proof.
  intros Hseats Hlockers. unfold branchEffect, fetchBranchSpecificData.
  destruct (renewDialogOpen st); [|auto].
  destruct (optValue (selectedBranch st)) as [branchId|]; [|auto].
  destruct (selectedStudent st) as [student|]; [|auto].
  destruct (JS.truthyId branchId); [|auto].
  destruct ans as [[allSeats allLockerItems]|e]; simpl; auto.
Qed.

Lemma none_option_stays_first_witness :
  head (seatOptions (fst (branchEffect (Resolved (seatsB1, lockersB1)) dialog)))
  = Some noneOption
  ∧ head (lockerOptions (fst (branchEffect (Resolved (seatsB1, lockersB1)) dialog)))
    = Some noneOption.
Proof.
  apply (none_option_stays_first (Resolved (seatsB1, lockersB1)) dialog).
  - reflexivity.
  - reflexivity.
Defined.

(** ** The shift effect *)

Lemma feeEffect_shiftOptions st : shiftOptions (feeEffect st) = shiftOptions st.
Proof. fee_cases st. Qed.

(** X5: when the request for the free shifts of the seat fails, the shift
    options and the chosen shifts stay as they were (the shifts are not
    opened up), the loading flag is down again and the failure is
    reported. *)
Theorem shift_fetch_failure_keeps_snapshot st seatId e :
  renewDialogOpen st = true →
  optValue (selectedSeat st) = Some seatId →
  seatId ≠ 0 →
  shiftOptions (fst (shiftsEffect (Rejected e) st)) = shiftOptions st
  ∧ selectedShifts (fst (shiftsEffect (Rejected e) st)) = selectedShifts st
  ∧ loadingShifts (fst (shiftsEffect (Rejected e) st)) = false
  ∧ snd (shiftsEffect (Rejected e) st)
    = [api_getAvailableShifts seatId;
       console_error "Failed to fetch available shifts:";
       toast_error "Failed to load available shifts."].
Proof.
  intros Hopen Hseat Hid. unfold shiftsEffect, fetchAvailableShiftsForSeat.
  rewrite Hopen, Hseat, (truthyId_true _ Hid). simpl. auto.
Qed.

Lemma shift_fetch_failure_keeps_snapshot_witness :
  selectedShifts
    (fst (shiftsEffect (Rejected {| ApiError.message := None;
                                    ApiError.responseMessage := None |}) dialog))
  = [evening].
Proof.
  apply (shift_fetch_failure_keeps_snapshot dialog 10).
  - reflexivity.
  - reflexivity.
  - lia.
Defined.

(** X6: the shift options always list the shifts of the catalog: if their
    ids and fees are those of the catalog, in its order, they still are
    after the shift effect, for every state and every answer. *)
Theorem shift_options_follow_catalog ans st :
  map ShiftOption.value (shiftOptions st) = map ShiftOption.value (allShifts st) →
  map ShiftOption.fee (shiftOptions st) = map ShiftOption.fee (allShifts st) →
  map ShiftOption.value (shiftOptions (fst (shiftsEffect ans st)))
  = map ShiftOption.value (allShifts (fst (shiftsEffect ans st)))
  ∧ map ShiftOption.fee (shiftOptions (fst (shiftsEffect ans st)))
    = map ShiftOption.fee (allShifts (fst (shiftsEffect ans st))).
Proof.
  intros Hvalues Hfees. unfold shiftsEffect, fetchAvailableShiftsForSeat.
  destruct (renewDialogOpen st); [|auto].
  destruct (optValue (selectedSeat st)) as [seatId|];
    [destruct (JS.truthyId seatId); [destruct ans as [availableShifts|e]|]|];
    simpl; rewrite ?map_map; auto.
Qed.

Lemma shift_options_follow_catalog_witness :
  map ShiftOption.value
      (shiftOptions (fst (shiftsEffect (Resolved freeOnS1) (setSelectedSeat (Some seatS1) dialog))))
  = map ShiftOption.value
        (allShifts (fst (shiftsEffect (Resolved freeOnS1) (setSelectedSeat (Some seatS1) dialog)))).
Proof.
  apply (shift_options_follow_catalog (Resolved freeOnS1) (setSelectedSeat (Some seatS1) dialog)).
  - reflexivity.
  - reflexivity.
Defined.

(** X7: picking no seat, by clearing the select or through the "None"
    entry, sends no request and leaves every shift of the catalog
    selectable under its catalog label. *)
Theorem no_seat_opens_all_shifts option ans st :
  renewDialogOpen st = true →
  JS.truthyOptId (optValue option) = false →
  shiftOptions (fst (setSeat option ans st)) = map enabled (allShifts st)
  ∧ map ShiftOption.label (shiftOptions (fst (setSeat option ans st)))
    = map ShiftOption.label (allShifts st)
  ∧ Forall (fun shift =>
              eligible (shiftOptions (fst (setSeat option ans st)))
                       (ShiftOption.value shift) = true)
           (allShifts st)
  ∧ snd (setSeat option ans st) = [].
Proof.
  intros Hopen Hnone. unfold setSeat.
  set (st1 := feeEffect (handleSeatChange option st)).
  assert (renewDialogOpen st1 = true) as Hopen1 by exact Hopen.
  assert (JS.truthyOptId (optValue (selectedSeat st1)) = false) as Hnone1 by exact Hnone.
  destruct (shiftsEffect_no_seat ans st1 Hopen1 Hnone1) as (_ & Hopts & Htrace).
  change (allShifts st1) with (allShifts st) in Hopts.
  destruct (shiftsEffect ans st1) as [st2 trace].
  cbn [fst snd] in *. rewrite feeEffect_shiftOptions, Hopts.
  split; [reflexivity|]. split; [|split; [|exact Htrace]].
  - rewrite map_map. reflexivity.
  - apply Forall_forall. intros shift Hshift. apply list_elem_of_In in Hshift.
    apply eligible_true. exists (enabled shift).
    split; [apply in_map, Hshift|]. split; [reflexivity|]. simpl. discriminate.
Qed.

Lemma no_seat_opens_all_shifts_witness :
  snd (setSeat (Some noneOption) (Resolved freeOnS1) dialog) = [].
Proof.
  apply (no_seat_opens_all_shifts (Some noneOption) (Resolved freeOnS1) dialog).
  - reflexivity.
  - reflexivity.
Defined.

(** ** Labels of the shift options *)

Lemma bytes_append a b : JS.bytes (a +:+ b) = (JS.bytes a ++ JS.bytes b)%list.
Proof.
  unfold JS.bytes. induction a as [|c a IH]; simpl; [reflexivity|].
  f_equal. exact IH.
Qed.

Lemma unbytes_bytes s : JS.unbytes (JS.bytes s) = s.
Proof.
  unfold JS.unbytes, JS.bytes. induction s as [|c s IH]; simpl; [reflexivity|].
  rewrite N2Z.id, ascii_N_embedding. f_equal. exact IH.
Qed.

Lemma splitHeadBytes_cons sep b l :
  JS.splitHeadBytes sep (b :: l)
  = if JS.startsWith sep (b :: l) then [] else b :: JS.splitHeadBytes sep l.
Proof. reflexivity. Qed.

(** A text without a hyphen is what [split(' - ')[0]] returns when the
    separator follows it. *)
Lemma splitHeadBytes_prefix (a r : list Z) :
  Forall (fun b => b ≠ 45) a →
  JS.splitHeadBytes [32; 45; 32] (a ++ [32; 45; 32] ++ r)%list = a.
Proof.
  induction a as [|b a IH]; intros Hfree; [reflexivity|].
  apply Forall_cons in Hfree as [Hb Ha].
  rewrite <- app_comm_cons, splitHeadBytes_cons.
  assert (JS.startsWith [32; 45; 32] (b :: a ++ [32; 45; 32] ++ r)%list = false) as ->.
  { cbn [JS.startsWith]. destruct (Z.eqb_spec 32 b) as [_|_]; [|reflexivity].
    destruct a as [|c a]; [reflexivity|].
    apply Forall_cons in Ha as [Hc _]. rewrite <- app_comm_cons.
    destruct (Z.eqb_spec 45 c) as [<-|_]; [contradiction|reflexivity]. }
  f_equal. apply IH, Ha.
Qed.

Lemma splitHead_prefix title rest :
  Forall (fun b => b ≠ 45) (JS.bytes title) →
  JS.splitHead " - " (title +:+ " - " +:+ rest) = title.
Proof.
  intros Hfree. unfold JS.splitHead.
  rewrite !bytes_append.
  change (JS.bytes " - ") with [32; 45; 32].
  rewrite (splitHeadBytes_prefix _ _ Hfree). apply unbytes_bytes.
Qed.

(** X8: for a schedule whose title holds no hyphen, the option built when
    the catalog is loaded and relabelled by the shift effect shows the
    title followed by "(Available)" or "(Assigned)": the fee part of the
    catalog label is dropped and the title is kept whole. *)
Theorem relabelled_option_shows_title ids shift :
  Forall (fun b => b ≠ 45) (JS.bytes (ApiSchedule.title shift)) →
  ShiftOption.label (annotated ids (formatShift shift))
  = ApiSchedule.title shift +:+ " "
    +:+ (if has ids (ApiSchedule.id shift) then "(Available)" else "(Assigned)").
Proof.
  intros Hfree. unfold annotated, formatShift; cbn [ShiftOption.label ShiftOption.value].
  replace (ApiSchedule.title shift +:+ " - [Fee: " +:+ feeText (ApiSchedule.fee shift) +:+ "]")
    with (ApiSchedule.title shift +:+ " - "
          +:+ ("[Fee: " +:+ feeText (ApiSchedule.fee shift) +:+ "]")) by reflexivity.
  rewrite (splitHead_prefix _ _ Hfree). reflexivity.
Qed.

Lemma relabelled_option_shows_title_witness :
  ShiftOption.label
    (annotated (list_to_set [1; 3])
       (formatShift {| ApiSchedule.id := 1; ApiSchedule.title := "Early Morning";
                       ApiSchedule.fee := defined 300%float |}))
  = "Early Morning (Available)".
Proof.
  rewrite relabelled_option_shows_title.
  - vm_compute. reflexivity.
  - cbv [JS.bytes ApiSchedule.title list_ascii_of_string map N_of_ascii N_of_digits
           Z.of_N N.add N.mul Pos.add Pos.mul Pos.succ].
    repeat (apply List.Forall_cons; [lia|]). apply List.Forall_nil.
Defined.

(** A title that holds " - " is cut at its first occurrence. *)
Example relabelled_option_of_hyphenated_title :
  ShiftOption.label
    (annotated (list_to_set [1; 3])
       (formatShift {| ApiSchedule.id := 2; ApiSchedule.title := "Mon - Fri";
                       ApiSchedule.fee := null |}))
  = "Mon (Assigned)"
  ∧ ShiftOption.label
      (formatShift {| ApiSchedule.id := 2; ApiSchedule.title := "Mon - Fri";
                      ApiSchedule.fee := null |})
    = "Mon - Fri - [Fee: null]".
Proof. vm_compute. split; reflexivity. Qed.

(** ** Opening the dialog *)

Lemma branchEffect_frame ans st :
  selectedStudent (fst (branchEffect ans st)) = selectedStudent st
  ∧ allShifts (fst (branchEffect ans st)) = allShifts st
  ∧ renewDialogOpen (fst (branchEffect ans st)) = renewDialogOpen st
  ∧ shiftOptions (fst (branchEffect ans st)) = shiftOptions st.
Proof.
  unfold branchEffect, fetchBranchSpecificData.
  destruct (renewDialogOpen st) eqn:Hopen; [|auto].
  destruct (optValue (selectedBranch st)) as [branchId|]; [|auto].
  destruct (selectedStudent st) as [student|] eqn:Hstudent; [|auto].
  destruct (JS.truthyId branchId); [|auto].
  destruct ans as [[allSeats allLockerItems]|e]; simpl; auto.
Qed.

Lemma feeEffect_selectedStudent st : selectedStudent (feeEffect st) = selectedStudent st.
Proof. fee_cases st. Qed.

Lemma feeEffect_renewDialogOpen st : renewDialogOpen (feeEffect st) = renewDialogOpen st.
Proof. fee_cases st. Qed.

Lemma feeEffect_selectedSeat st : selectedSeat (feeEffect st) = selectedSeat st.
Proof. fee_cases st. Qed.

Lemma shiftsEffect_allShifts ans st : allShifts (fst (shiftsEffect ans st)) = allShifts st.
Proof.
  unfold shiftsEffect, fetchAvailableShiftsForSeat.
  destruct (renewDialogOpen st); [|reflexivity].
  destruct (optValue (selectedSeat st)) as [seatId|]; [|reflexivity].
  destruct (JS.truthyId seatId); [|reflexivity].
  destruct ans as [availableShifts|e]; reflexivity.
Qed.

Lemma filter_all {A : Type} (f : A → bool) (l : list A) :
  (∀ x, In x l → f x = true) → List.filter f l = l.
Proof.
  induction l as [|a l IH]; intros Hall; simpl; [reflexivity|].
  rewrite (Hall a (or_introl eq_refl)). f_equal. apply IH.
  intros x Hx. apply Hall. right. exact Hx.
Qed.

(** The shift effect never drops a chosen shift that the student holds. *)
Lemma shiftsEffect_keeps_own_shifts ans st :
  (∀ s, In s (selectedShifts st) →
        In (ShiftOption.value s) (studentCurrentShiftIds (selectedStudent st))) →
  selectedShifts (fst (shiftsEffect ans st)) = selectedShifts st.
Proof.
  intros Hown. unfold shiftsEffect, fetchAvailableShiftsForSeat.
  destruct (renewDialogOpen st); [|reflexivity].
  destruct (optValue (selectedSeat st)) as [seatId|]; [|reflexivity].
  destruct (JS.truthyId seatId); [|reflexivity].
  destruct ans as [availableShifts|e]; [|reflexivity].
  simpl. apply filter_all. intros s Hs.
  apply has_true, availableShiftIds_spec. right. apply Hown, Hs.
Qed.

Lemma currentShifts_values catalog details :
  map ShiftOption.value (currentShifts catalog details)
  = studentCurrentShiftIds (Some (studentOf details)).
Proof.
  unfold currentShifts, studentCurrentShiftIds, studentOf; simpl.
  destruct (StudentDetails.assignments details) as [l|]; [|reflexivity].
  rewrite map_map. reflexivity.
Qed.

Lemma openRenewDialog_selectedShifts details now later branchAns shiftAns st :
  selectedShifts (fst (openRenewDialog details now later branchAns shiftAns st))
  = currentShifts (allShifts st) details
  ∧ allShifts (fst (openRenewDialog details now later branchAns shiftAns st))
    = allShifts st.
Proof.
  unfold openRenewDialog.
  set (st0 := prefill details now later st).
  destruct (branchEffect_selection branchAns st0) as (_ & _ & Hsel1 & _).
  destruct (branchEffect_frame branchAns st0) as (Hstudent1 & Hcat1 & _ & _).
  destruct (branchEffect branchAns st0) as [st1 branchTrace]. cbn [fst] in *.
  pose proof (shiftsEffect_keeps_own_shifts shiftAns (feeEffect st1)) as Hkeep.
  pose proof (shiftsEffect_allShifts shiftAns (feeEffect st1)) as Hcat2.
  destruct (shiftsEffect shiftAns (feeEffect st1)) as [st2 shiftTrace]. cbn [fst] in *.
  rewrite feeEffect_selectedShifts, feeEffect_allShifts.
  rewrite feeEffect_selectedShifts, feeEffect_selectedStudent in Hkeep.
  rewrite feeEffect_allShifts in Hcat2.
  rewrite Hcat2, Hcat1. split; [|reflexivity].
  rewrite Hkeep, Hsel1; [reflexivity|].
  intros s Hs. rewrite Hsel1 in Hs. rewrite Hstudent1.
  change (selectedStudent st0) with (Some (studentOf details)).
  rewrite <- (currentShifts_values (allShifts st)). apply in_map, Hs.
Qed.

(** X9: when the dialog is opened for a student, every shift the student
    holds is chosen and stays chosen once the effects have run, whatever
    the seat reports as free and whether or not the requests succeed: the
    chosen ids are the shift ids of the assignments, in their order. *)
Theorem opening_keeps_current_shifts details now later branchAns shiftAns st :
  selectedShifts (fst (openRenewDialog details now later branchAns shiftAns st))
  = currentShifts (allShifts st) details
  ∧ map ShiftOption.value
        (selectedShifts (fst (openRenewDialog details now later branchAns shiftAns st)))
    = match StudentDetails.assignments details with
      | Some l => map Assignment.shiftId l
      | None => []
      end.
Proof.
  destruct (openRenewDialog_selectedShifts details now later branchAns shiftAns st)
    as [Hsel _].
  rewrite Hsel. split; [reflexivity|]. apply currentShifts_values.
Qed.


(** Student 7 is stored with a total fee of 950 and holds the evening
    shift, whose catalog fee is 400: the dialog shows "400", keeps the
    evening shift chosen although seat S0 reports nothing free, and selects
    the seat of the first assignment. *)
Example opening_the_dialog_of_student7 :
  totalFee (prefill details7 0 1 closedForm) = "950"
  ∧ totalFee (fst (openRenewDialog details7 0 1 (Resolved (seatsB1, lockersB1))
                     (Resolved []) closedForm)) = "400"
  ∧ map ShiftOption.value
        (selectedShifts (fst (openRenewDialog details7 0 1 (Resolved (seatsB1, lockersB1))
                                (Resolved []) closedForm))) = [2]
  ∧ selectedSeat (fst (openRenewDialog details7 0 1 (Resolved (seatsB1, lockersB1))
                         (Resolved []) closedForm)) = Some seatS0
  ∧ snd (openRenewDialog details7 0 1 (Resolved (seatsB1, lockersB1))
           (Resolved []) closedForm)
    = [api_getSeats 1; api_getLockers 1; api_getAvailableShifts 10].
Proof. vm_compute. repeat split. Qed.

(** ** Outcomes of a submission *)

(** The run of [handleRenewSubmit] on a state that passes the guard. *)
Lemma handleRenewSubmit_valid renewAns listAns st :
  requiredMissing st = false →
  ∃ student sd ed branchId,
    selectedStudent st = Some student
    ∧ optValue (selectedBranch st) = Some branchId
    ∧ branchId ≠ 0
    ∧ handleRenewSubmit renewAns listAns st
      = let call := api_renewStudent (Student.id student) (renewPayload sd ed branchId st) in
        match renewAns with
        | Rejected err =>
            (st, [call; console_error "Renew error:"; toast_error (renewErrorMessage err)])
        | Resolved _ =>
            let done :=
              [call;
               toast_success ("Membership renewed for " +:+ Student.name student);
               api_getExpiredMemberships (optValue (selectedBranchFilter st))] in
            match listAns with
            | Resolved resp => (setStudents resp (setRenewDialogOpen false st), done)
            | Rejected err =>
                (setRenewDialogOpen false st,
                 (done ++ [console_error "Renew error:";
                           toast_error (renewErrorMessage err)])%list)
            end
        end.
Proof.
  intros Hpass.
  destruct (requiredMissing_false st Hpass)
    as (student & sd & ed & branchId & Hstudent & Hsd & Hed & Hbranch & Hid & _).
  exists student, sd, ed, branchId. repeat split; auto.
  unfold handleRenewSubmit. rewrite Hstudent, Hsd, Hed, Hbranch, Hpass. reflexivity.
Qed.

(** X11: when the server rejects the renewal, the state is left exactly as
    it was (the dialog stays open with every input), nothing is requested
    after the renewal, and the message shown is the server's message, or
    "Failed to renew membership" when there is none or it is empty. *)
Theorem rejected_renewal_keeps_form err listAns st :
  requiredMissing st = false →
  fst (handleRenewSubmit (Rejected err) listAns st) = st
  ∧ (∃ id payload,
       snd (handleRenewSubmit (Rejected err) listAns st)
       = [api_renewStudent id payload; console_error "Renew error:";
          toast_error (renewErrorMessage err)])
  ∧ (∀ m, ApiError.responseMessage err = Some m → m ≠ "" → renewErrorMessage err = m)
  ∧ (ApiError.responseMessage err = None ∨ ApiError.responseMessage err = Some "" →
     renewErrorMessage err = "Failed to renew membership").
Proof.
  intros Hpass.
  destruct (handleRenewSubmit_valid (Rejected err) listAns st Hpass)
    as (student & sd & ed & branchId & _ & _ & _ & ->).
  split; [reflexivity|]. split; [eauto|]. unfold renewErrorMessage. split.
  - intros m -> Hm. destruct m; [contradiction|reflexivity].
  - intros [->| ->]; reflexivity.
Qed.

Lemma rejected_renewal_keeps_form_witness :
  fst (handleRenewSubmit
         (Rejected {| ApiError.message := Some "Request failed with status code 409";
                      ApiError.responseMessage := Some "Seat already taken" |})
         (Resolved []) dialog) = dialog.
Proof.
  apply (rejected_renewal_keeps_form
           {| ApiError.message := Some "Request failed with status code 409";
              ApiError.responseMessage := Some "Seat already taken" |} (Resolved []) dialog).
  vm_compute. reflexivity.
Defined.

(** X12: when the renewal is accepted and the reload of the expired
    students fails, the dialog is closed, the list of students is not
    touched, and the success message is followed by the error message of a
    failed renewal. *)
Theorem failed_reload_reports_failed_renewal err st :
  requiredMissing st = false →
  fst (handleRenewSubmit (Resolved tt) (Rejected err) st) = setRenewDialogOpen false st
  ∧ ∃ id payload student,
      selectedStudent st = Some student
      ∧ snd (handleRenewSubmit (Resolved tt) (Rejected err) st)
        = [api_renewStudent id payload;
           toast_success ("Membership renewed for " +:+ Student.name student);
           api_getExpiredMemberships (optValue (selectedBranchFilter st));
           console_error "Renew error:";
           toast_error (renewErrorMessage err)].
Proof.
  intros Hpass.
  destruct (handleRenewSubmit_valid (Resolved tt) (Rejected err) st Hpass)
    as (student & sd & ed & branchId & Hstudent & _ & _ & ->).
  split; [reflexivity|]. eauto.
Qed.

Lemma failed_reload_reports_failed_renewal_witness :
  fst (handleRenewSubmit (Resolved tt)
         (Rejected {| ApiError.message := Some "Network Error";
                      ApiError.responseMessage := None |}) dialog)
  = setRenewDialogOpen false dialog.
Proof.
  apply (failed_reload_reports_failed_renewal
           {| ApiError.message := Some "Network Error"; ApiError.responseMessage := None |}
           dialog).
  vm_compute. reflexivity.
Defined.

(** X13: an accepted renewal closes the dialog and replaces the list of
    students by the reloaded one; every input of the form is kept, and the
    effects that run because the dialog closed send no request and change
    nothing. *)
Theorem accepted_renewal_closes_dialog resp st :
  requiredMissing st = false →
  fst (handleRenewSubmit (Resolved tt) (Resolved resp) st)
  = setStudents resp (setRenewDialogOpen false st)
  ∧ (∀ branchAns,
       branchEffect branchAns (fst (handleRenewSubmit (Resolved tt) (Resolved resp) st))
       = (fst (handleRenewSubmit (Resolved tt) (Resolved resp) st), []))
  ∧ (∀ shiftAns,
       shiftsEffect shiftAns (fst (handleRenewSubmit (Resolved tt) (Resolved resp) st))
       = (fst (handleRenewSubmit (Resolved tt) (Resolved resp) st), [])).
Proof.
  intros Hpass.
  destruct (handleRenewSubmit_valid (Resolved tt) (Resolved resp) st Hpass)
    as (student & sd & ed & branchId & _ & _ & _ & ->).
  cbn [fst]. repeat split.
Qed.

Lemma accepted_renewal_closes_dialog_witness :
  fst (handleRenewSubmit (Resolved tt) (Resolved [student9]) dialog)
  = setStudents [student9] (setRenewDialogOpen false dialog).
Proof.
  apply (accepted_renewal_closes_dialog [student9] dialog).
  vm_compute. reflexivity.
Defined.

(** X14: the request of a submission that passes the guard names the
    selected student, carries the ids of the chosen shifts, of which there
    is at least one, and a branch id other than 0; the name, phone and
    address are sent as typed, not trimmed, and none of them is blank. *)
Theorem sent_request_is_complete renewAns listAns st :
  requiredMissing st = false →
  ∃ student payload rest,
    snd (handleRenewSubmit renewAns listAns st)
    = api_renewStudent (Student.id student) payload :: rest
    ∧ selectedStudent st = Some student
    ∧ RenewPayload.shiftIds payload = map ShiftOption.value (selectedShifts st)
    ∧ RenewPayload.shiftIds payload ≠ []
    ∧ optValue (selectedBranch st) = Some (RenewPayload.branchId payload)
    ∧ RenewPayload.branchId payload ≠ 0
    ∧ RenewPayload.name payload = nameInput st
    ∧ RenewPayload.phone payload = phoneInput st
    ∧ RenewPayload.address payload = addressInput st
    ∧ JS.trim (RenewPayload.name payload) ≠ ""
    ∧ JS.trim (RenewPayload.phone payload) ≠ ""
    ∧ JS.trim (RenewPayload.address payload) ≠ "".
Proof.
  intros Hpass.
  destruct (handleRenewSubmit_valid renewAns listAns st Hpass)
    as (student & sd & ed & branchId & Hstudent & Hbranch & Hid & Hrun).
  destruct (requiredMissing_false st Hpass) as (_ & _ & _ & _ & _ & _ & _ & _ & _ & Hshifts).
  assert (JS.trim (nameInput st) ≠ "" ∧ JS.trim (phoneInput st) ≠ ""
          ∧ JS.trim (addressInput st) ≠ "") as (Hname & Hphone & Haddress).
  { unfold requiredMissing in Hpass.
    repeat (apply orb_false_iff in Hpass as [Hpass ?]).
    repeat split; intros Hblank;
      match goal with
      | H : negb (JS.truthyStr (JS.trim _)) = false |- _ =>
          rewrite Hblank in H; discriminate H
      end. }
  exists student, (renewPayload sd ed branchId st).
  assert (∃ rest, snd (handleRenewSubmit renewAns listAns st)
                  = api_renewStudent (Student.id student) (renewPayload sd ed branchId st)
                    :: rest) as [rest Hsent].
  { rewrite Hrun. destruct renewAns as [[]|err]; [destruct listAns as [resp|err]|];
      simpl; eauto. }
  exists rest. cbn [renewPayload RenewPayload.shiftIds RenewPayload.branchId
                     RenewPayload.name RenewPayload.phone RenewPayload.address].
  repeat split; auto.
  destruct (selectedShifts st); [contradiction|discriminate].
Qed.

Lemma sent_request_is_complete_witness :
  ∃ student payload rest,
    snd (handleRenewSubmit (Resolved tt) (Resolved []) dialog)
    = api_renewStudent (Student.id student) payload :: rest
    ∧ selectedStudent dialog = Some student
    ∧ RenewPayload.shiftIds payload = map ShiftOption.value (selectedShifts dialog)
    ∧ RenewPayload.shiftIds payload ≠ []
    ∧ optValue (selectedBranch dialog) = Some (RenewPayload.branchId payload)
    ∧ RenewPayload.branchId payload ≠ 0
    ∧ RenewPayload.name payload = nameInput dialog
    ∧ RenewPayload.phone payload = phoneInput dialog
    ∧ RenewPayload.address payload = addressInput dialog
    ∧ JS.trim (RenewPayload.name payload) ≠ ""
    ∧ JS.trim (RenewPayload.phone payload) ≠ ""
    ∧ JS.trim (RenewPayload.address payload) ≠ "".
Proof.
  apply (sent_request_is_complete (Resolved tt) (Resolved []) dialog).
  vm_compute. reflexivity.
Defined.

(** ** The fee that is sent *)

Lemma parseFloat_zero : JS.parseFloat "0" = 0%float.
Proof. vm_compute. reflexivity. Qed.

(** X15: the guard only asks for a fee text that is not empty: a fee that
    does not parse as a number passes it, and the request carries [NaN] as
    the total fee. *)
Theorem unparseable_fee_is_sent renewAns listAns st :
  requiredMissing st = false →
  is_nan (JS.parseFloat (totalFee st)) = true →
  ∃ id payload rest,
    snd (handleRenewSubmit renewAns listAns st) = api_renewStudent id payload :: rest
    ∧ is_nan (RenewPayload.totalFee payload) = true.
Proof.
  intros Hpass Hnan.
  destruct (handleRenewSubmit_sends renewAns listAns st Hpass)
    as (student & sd & ed & branchId & rest & _ & _ & _ & _ & Hsent).
  exists (Student.id student), (renewPayload sd ed branchId st), rest.
  split; [exact Hsent|exact Hnan].
Qed.

Lemma unparseable_fee_is_sent_witness :
  ∃ id payload rest,
    snd (handleRenewSubmit (Resolved tt) (Resolved []) (setTotalFee "abc" dialog))
    = api_renewStudent id payload :: rest
    ∧ is_nan (RenewPayload.totalFee payload) = true.
Proof.
  apply (unparseable_fee_is_sent (Resolved tt) (Resolved []) (setTotalFee "abc" dialog)).
  - vm_compute. reflexivity.
  - vm_compute. reflexivity.
Defined.

(** X16: after the shift selection has changed to several shifts the fee
    field holds "0", which passes the guard: submitting without typing a
    fee sends a total fee of 0. *)
Theorem several_shifts_send_zero_fee renewAns listAns options st :
  length options ≠ 1%nat →
  requiredMissing (setShifts (Some options) st) = false →
  totalFee (setShifts (Some options) st) = "0"
  ∧ ∃ id payload rest,
      snd (handleRenewSubmit renewAns listAns (setShifts (Some options) st))
      = api_renewStudent id payload :: rest
      ∧ RenewPayload.totalFee payload = 0%float.
Proof.
  intros Hlen Hpass.
  assert (totalFee (setShifts (Some options) st) = "0") as Hfee.
  { unfold setShifts. apply feeEffect_not_single. exact Hlen. }
  split; [exact Hfee|].
  destruct (handleRenewSubmit_sends renewAns listAns _ Hpass)
    as (student & sd & ed & branchId & rest & _ & _ & _ & _ & Hsent).
  exists (Student.id student), (renewPayload sd ed branchId (setShifts (Some options) st)), rest.
  split; [exact Hsent|].
  cbn [renewPayload RenewPayload.totalFee]. rewrite Hfee. apply parseFloat_zero.
Qed.

Lemma several_shifts_send_zero_fee_witness :
  totalFee (setShifts (Some [morning; night]) dialog) = "0"
  ∧ ∃ id payload rest,
      snd (handleRenewSubmit (Resolved tt) (Resolved [])
             (setShifts (Some [morning; night]) dialog))
      = api_renewStudent id payload :: rest
      ∧ RenewPayload.totalFee payload = 0%float.
Proof.
  apply (several_shifts_send_zero_fee (Resolved tt) (Resolved []) [morning; night] dialog).
  - simpl. lia.
  - vm_compute. reflexivity.
Defined.

(** ** The locker *)

(** X17: clearing the locker select resets the locker fee, so the request
    has no locker id and a locker fee of 0; choosing an entry, the "None"
    entry included, keeps the locker fee that was typed, and the "None"
    entry is sent as a null locker id. *)
Theorem cleared_locker_resets_fee sd ed branchId st :
  (RenewPayload.lockerId (renewPayload sd ed branchId (setLocker None st)) = None
   ∧ RenewPayload.lockerFee (renewPayload sd ed branchId (setLocker None st)) = 0%float)
  ∧ (∀ option,
       lockerFee (setLocker (Some option) st) = lockerFee st
       ∧ RenewPayload.lockerId (renewPayload sd ed branchId (setLocker (Some option) st))
         = Some (SelectOption.value option)
       ∧ RenewPayload.lockerFee (renewPayload sd ed branchId (setLocker (Some option) st))
         = RenewPayload.lockerFee (renewPayload sd ed branchId st))
  ∧ RenewPayload.lockerId (renewPayload sd ed branchId (setLocker (Some noneOption) st))
    = Some None.
Proof.
  split; [|split].
  - split; [reflexivity|].
    cbn [renewPayload RenewPayload.lockerFee setLocker handleLockerChange].
    change (lockerFee (setLockerFee "0" (setSelectedLocker None st))) with "0".
    rewrite parseFloat_zero. reflexivity.
  - intros option. repeat split.
  - reflexivity.
Qed.

Example locker_fee_of_dialog :
  RenewPayload.lockerFee (renewPayload 0 0 1 (setLockerFee "150" dialog)) = 150%float
  ∧ RenewPayload.lockerFee
      (renewPayload 0 0 1 (setLocker None (setLockerFee "150" dialog))) = 0%float
  ∧ RenewPayload.lockerFee
      (renewPayload 0 0 1 (setLocker (Some noneOption) (setLockerFee "150" dialog)))
    = 150%float.
Proof. vm_compute. repeat split. Qed.

(** ** Deleting a student *)

(** X18: a confirmed and accepted deletion removes from the list exactly
    the students with the id of the deleted one and keeps the others in
    their order; without confirmation no request is sent, and when the
    request fails the list is left as it is and the message of the error,
    or "Failed to delete student.", is shown. *)
Theorem deletion_removes_the_student student st :
  (∀ s, In s (students (fst (handleDeleteClick true (Resolved tt) student st)))
        ↔ In s (students st) ∧ Student.id s ≠ Student.id student)
  ∧ students (fst (handleDeleteClick true (Resolved tt) student st))
    = List.filter (fun s => negb (Student.id s =? Student.id student)) (students st)
  ∧ (∀ ans, fst (handleDeleteClick false ans student st) = st
            ∧ ∀ id, ¬ In (api_deleteStudent id) (snd (handleDeleteClick false ans student st)))
  ∧ (∀ err, fst (handleDeleteClick true (Rejected err) student st) = st
            ∧ In (form_event (toast_error (messageOr err "Failed to delete student.")))
                 (snd (handleDeleteClick true (Rejected err) student st))).
Proof.
  split; [|split; [|split]].
  - intros s. cbn [handleDeleteClick fst]. change (students (setStudents ?l st)) with l.
    rewrite filter_In, negb_true_iff, Z.eqb_neq. reflexivity.
  - reflexivity.
  - intros ans. split; [reflexivity|].
    intros id [H|[]]. discriminate H.
  - intros err. split; [reflexivity|]. simpl. auto.
Qed.

Example deletion_of_student7 :
  students (fst (handleDeleteClick true (Resolved tt) student7 closedForm)) = [student9]
  ∧ snd (handleDeleteClick true (Resolved tt) student7 closedForm)
    = [window_confirm
         "Are you sure you want to delete this student? This action cannot be undone.";
       api_deleteStudent 7;
       form_event (toast_success "Student deleted successfully.")].
Proof. split; reflexivity. Qed.

(** ** The WhatsApp link *)

Lemma bytes_unbytes (l : list Z) :
  Forall (fun b => 0 <= b < 256) l → JS.bytes (JS.unbytes l) = l.
Proof.
  unfold JS.bytes, JS.unbytes. induction l as [|b l IH]; intros Hrange; [reflexivity|].
  apply Forall_cons in Hrange as [Hb Hl]. simpl.
  rewrite N_ascii_embedding by lia. rewrite Z2N.id by lia.
  f_equal. apply IH, Hl.
Qed.

Lemma isDigit_range b : JS.isDigit b = true → 0 <= b < 256.
Proof. unfold JS.isDigit. intros H. apply andb_true_iff in H. lia. Qed.

Lemma filter_Forall {A : Type} (f : A → bool) (l : list A) :
  Forall (fun x => f x = true) (List.filter f l).
Proof.
  induction l as [|a l IH]; simpl; [constructor|].
  destruct (f a) eqn:Hf; [constructor; assumption|assumption].
Qed.

(** X19: the WhatsApp link is "https://wa.me/" followed by the decimal
    digits of the phone text, in order, and by nothing else; a phone text
    made of digits only is used as it is, and formatting twice changes
    nothing. *)
Theorem whatsapp_link_holds_digits_only phone :
  whatsappUrl phone = "https://wa.me/" +:+ formattedPhone phone
  ∧ JS.bytes (formattedPhone phone) = List.filter JS.isDigit (JS.bytes phone)
  ∧ Forall (fun b => JS.isDigit b = true) (JS.bytes (formattedPhone phone))
  ∧ (Forall (fun b => JS.isDigit b = true) (JS.bytes phone) → formattedPhone phone = phone)
  ∧ formattedPhone (formattedPhone phone) = formattedPhone phone.
Proof.
  assert (JS.bytes (formattedPhone phone) = List.filter JS.isDigit (JS.bytes phone)) as Hbytes.
  { unfold formattedPhone. apply bytes_unbytes.
    apply List.Forall_forall. intros b Hb.
    apply filter_In in Hb as [_ Hd]. apply isDigit_range, Hd. }
  assert (∀ text, Forall (fun b => JS.isDigit b = true) (JS.bytes text) →
                  formattedPhone text = text) as Hdigits.
  { intros text Hall. unfold formattedPhone. rewrite filter_all.
    - apply unbytes_bytes.
    - intros b Hb. rewrite List.Forall_forall in Hall. apply Hall, Hb. }
  split; [reflexivity|]. split; [exact Hbytes|]. split; [|split].
  - rewrite Hbytes. apply filter_Forall.
  - apply Hdigits.
  - apply Hdigits. rewrite Hbytes. apply filter_Forall.
Qed.

Example whatsapp_link_of_student7 :
  handleWhatsAppClick (StudentDetails.phone details7)
  = [window_open "https://wa.me/919000000007" "_blank"]
  ∧ handleWhatsAppClick "n/a" = [window_open "https://wa.me/" "_blank"].
Proof. vm_compute. split; reflexivity. Qed.

(** ** Loading the page data *)

Lemma shiftFee_formatShift_cons a schedules shiftId :
  shiftFee (map formatShift (a :: schedules)) shiftId
  = if ApiSchedule.id a =? shiftId
    then ShiftOption.fee (formatShift a)
    else shiftFee (map formatShift schedules) shiftId.
Proof.
  unfold shiftFee. cbn [map List.find formatShift ShiftOption.value].
  destruct (ApiSchedule.id a =? shiftId); reflexivity.
Qed.

(** X20: once the catalog is loaded from schedules with distinct ids, the
    shift options are the catalog itself, and the fee found in the catalog
    for the id of a schedule is the fee of that schedule, or 0 when the
    schedule has none; chosen alone, the shift sets the fee field to that
    number. *)
Theorem loaded_catalog_gives_schedule_fee schedules branchesResp pg shift :
  NoDup (map ApiSchedule.id schedules) →
  In shift schedules →
  shiftOptions (form (fst (fetchSupportingData (Resolved (schedules, branchesResp)) pg)))
  = allShifts (form (fst (fetchSupportingData (Resolved (schedules, branchesResp)) pg)))
  ∧ shiftFee
      (allShifts (form (fst (fetchSupportingData (Resolved (schedules, branchesResp)) pg))))
      (ApiSchedule.id shift)
    = match ApiSchedule.fee shift with
      | defined x => x
      | _ => 0%float
      end
  ∧ totalFee
      (setShifts (Some [formatShift shift])
         (form (fst (fetchSupportingData (Resolved (schedules, branchesResp)) pg))))
    = JS.numberToString
        match ApiSchedule.fee shift with
        | defined x => x
        | _ => 0%float
        end.
Proof.
  intros Hdistinct Hin.
  assert (shiftFee (map formatShift schedules) (ApiSchedule.id shift)
          = match ApiSchedule.fee shift with
            | defined x => x
            | _ => 0%float
            end) as Hfee.
  { induction schedules as [|a schedules IH]; [destruct Hin|].
    rewrite shiftFee_formatShift_cons.
    apply NoDup_cons in Hdistinct as [Hfresh Hdistinct].
    destruct Hin as [->|Hin].
    - rewrite Z.eqb_refl. reflexivity.
    - destruct (Z.eqb_spec (ApiSchedule.id a) (ApiSchedule.id shift)) as [Heq|_].
      + exfalso. apply Hfresh. rewrite Heq. apply list_elem_of_In, in_map, Hin.
      + apply IH; assumption. }
  cbn [fetchSupportingData fst form].
  change (allShifts (setBranchOptions ?b (setShiftOptions ?o (setAllShifts ?c ?st)))) with c.
  change (shiftOptions (setBranchOptions ?b (setShiftOptions ?o (setAllShifts ?c ?st)))) with o.
  split; [reflexivity|]. split; [exact Hfee|].
  unfold setShifts. rewrite (feeEffect_single _ (formatShift shift)) by reflexivity.
  cbn [formatShift ShiftOption.value].
  change (allShifts (handleShiftChange ?o (setBranchOptions ?b (setShiftOptions ?x (setAllShifts ?c ?st)))))
    with c.
  rewrite Hfee. reflexivity.
Qed.

Lemma loaded_catalog_gives_schedule_fee_witness :
  totalFee
    (setShifts
       (Some [formatShift {| ApiSchedule.id := 2; ApiSchedule.title := "Evening";
                             ApiSchedule.fee := null |}])
       (form (fst (fetchSupportingData
                     (Resolved ([ {| ApiSchedule.id := 1; ApiSchedule.title := "Morning";
                                     ApiSchedule.fee := defined 300%float |};
                                  {| ApiSchedule.id := 2; ApiSchedule.title := "Evening";
                                     ApiSchedule.fee := null |} ],
                                [ {| Branch.id := 1; Branch.name := "B1" |} ]))
                     {| form := closedForm; loading := true; branchFilterOptions := [] |}))))
  = JS.numberToString 0.
Proof.
  apply (loaded_catalog_gives_schedule_fee
           [ {| ApiSchedule.id := 1; ApiSchedule.title := "Morning";
                ApiSchedule.fee := defined 300%float |};
             {| ApiSchedule.id := 2; ApiSchedule.title := "Evening";
                ApiSchedule.fee := null |} ]
           [ {| Branch.id := 1; Branch.name := "B1" |} ]
           {| form := closedForm; loading := true; branchFilterOptions := [] |}
           {| ApiSchedule.id := 2; ApiSchedule.title := "Evening"; ApiSchedule.fee := null |}).
  - simpl. constructor.
    + intros H. apply list_elem_of_In in H. destruct H as [H|[]]. discriminate H.
    + constructor; [|constructor]. intros H. apply list_elem_of_In in H. destruct H.
  - simpl. auto.
Defined.

(** The options built from a loaded catalog and the branch filter. *)
Example loaded_page :
  map ShiftOption.label
      (allShifts (form (fst (fetchSupportingData
         (Resolved ([ {| ApiSchedule.id := 1; ApiSchedule.title := "Morning";
                         ApiSchedule.fee := defined 300%float |};
                      {| ApiSchedule.id := 2; ApiSchedule.title := "Evening";
                         ApiSchedule.fee := undefined |} ],
                    [ {| Branch.id := 1; Branch.name := "B1" |} ]))
         {| form := closedForm; loading := true; branchFilterOptions := [] |}))))
  = ["Morning - [Fee: 300]"; "Evening - [Fee: undefined]"]
  ∧ branchFilterOptions (fst (fetchSupportingData
       (Resolved ([], [ {| Branch.id := 1; Branch.name := "B1" |} ]))
       {| form := closedForm; loading := true; branchFilterOptions := [] |}))
    = [allBranchesOption; branchB1].
Proof. vm_compute. split; reflexivity. Qed.

(** X21: a failed load changes nothing in the state used by the dialog:
    not the catalog when the schedules and branches cannot be fetched, not
    the list of students when the expired students cannot be fetched, and
    the dialog is not opened when the details of the student cannot be
    fetched; the table stops loading in the last two cases, and the
    message shown is that of the error, or a fixed text when the error has
    none or an empty one. *)
Theorem failed_loads_change_nothing e pg studentId now later :
  fst (fetchSupportingData (Rejected e) pg) = pg
  ∧ In (form_event (toast_error (messageOr e "Failed to fetch supporting data.")))
       (snd (fetchSupportingData (Rejected e) pg))
  ∧ form (fst (fetchExpiredStudents (Rejected e) pg)) = form pg
  ∧ loading (fst (fetchExpiredStudents (Rejected e) pg)) = false
  ∧ In (form_event (toast_error (messageOr e "Failed to fetch expired memberships.")))
       (snd (fetchExpiredStudents (Rejected e) pg))
  ∧ form (fst (handleRenewClick studentId (Rejected e) now later pg)) = form pg
  ∧ loading (fst (handleRenewClick studentId (Rejected e) now later pg)) = false
  ∧ In (form_event (toast_error "Failed to load student details for renewal."))
       (snd (handleRenewClick studentId (Rejected e) now later pg))
  ∧ (∀ fallback m, ApiError.message e = Some m → m ≠ "" → messageOr e fallback = m)
  ∧ (∀ fallback, ApiError.message e = None ∨ ApiError.message e = Some "" →
                 messageOr e fallback = fallback).
Proof.
  repeat split; try (simpl; auto 6; fail).
  - intros fallback m Hm Hne. unfold messageOr. rewrite Hm.
    destruct m; [contradiction|reflexivity].
  - intros fallback [Hm|Hm]; unfold messageOr; rewrite Hm; reflexivity.
Qed.
